(** * hub-tag-delete: a shallow embedding of [hub-tag-delete.py]

    The script reads a list of deletion records (tag patterns with a date)
    from a JSON file and from a Markdown table, lists the tags of a Docker
    Hub repository page by page, and deletes the tags that match a pattern
    of a record whose date has passed.

    Python values are modelled as follows.
    - [str] is [string]; a character is a code point below 256.
    - A [dict] with the keys ['tags'] and ['date'] is the record [item].
    - An exception is a value of [exn]; a function that can raise returns
      a [result].
    - The HTTP session is a transition function on an abstract world; every
      request that is sent is appended to a log, every printed line to the
      output.
    - The [while True] loop of the pagination takes fuel. *)

From Stdlib Require Import String Ascii List ZArith Lia Bool Arith.
Import ListNotations.
Open Scope string_scope.
Open Scope list_scope.
Open Scope Z_scope.

(** ** Exceptions and results *)

Inductive exn : Type :=
| IndexError (msg : string)
| ValueError
| TypeError
| KeyError (key : string)
| JSONDecodeError
| RequestException
| OSError
| HTTPError (status_code : Z).

(** [OutOfFuel] is not a Python exception: it says that the fuel given to the
    pagination loop ran out before the loop ended. *)
Inductive result (A : Type) : Type :=
| Ok (a : A)
| Raise (e : exn)
| OutOfFuel.
Arguments Ok {A} a.
Arguments Raise {A} e.
Arguments OutOfFuel {A}.

Definition rbind {A B} (r : result A) (k : A -> result B) : result B :=
  match r with
  | Ok a => k a
  | Raise e => Raise e
  | OutOfFuel => OutOfFuel
  end.

(** [[f(x) for x in l]] where [f] can raise. *)
Fixpoint rmap {A B} (f : A -> result B) (l : list A) : result (list B) :=
  match l with
  | [] => Ok []
  | x :: l' => rbind (f x) (fun y => rbind (rmap f l') (fun ys => Ok (y :: ys)))
  end.

(** ** Python strings *)

Module PyStr.

(** [str.isspace] on the code points below 256. *)
Definition isspace (c : ascii) : bool :=
  let n := nat_of_ascii c in
  ((9 <=? n) && (n <=? 13) || (28 <=? n) && (n <=? 32)
   || (n =? 133) || (n =? 160))%nat.

Fixpoint lstrip (s : string) : string :=
  match s with
  | EmptyString => EmptyString
  | String c s' => if isspace c then lstrip s' else s
  end.

Fixpoint rstrip (s : string) : string :=
  match s with
  | EmptyString => EmptyString
  | String c s' =>
      match rstrip s' with
      | EmptyString => if isspace c then EmptyString else String c EmptyString
      | r => String c r
      end
  end.

(** [s.strip()] *)
Definition strip (s : string) : string := lstrip (rstrip s).

(** [s.split(sep)] for a separator of one character. *)
Fixpoint split (sep : ascii) (s : string) : list string :=
  match s with
  | EmptyString => [EmptyString]
  | String c s' =>
      if Ascii.eqb c sep then EmptyString :: split sep s'
      else match split sep s' with
           | h :: t => String c h :: t
           | [] => [String c EmptyString]
           end
  end.

(** [s.replace(c, '')] for a single character [c]. *)
Fixpoint remove (c : ascii) (s : string) : string :=
  match s with
  | EmptyString => EmptyString
  | String a s' => if Ascii.eqb a c then remove c s' else String a (remove c s')
  end.

(** [s.startswith(p)] *)
Definition startswith (s p : string) : bool := String.prefix p s.

(** Truth value of a string: non-empty. *)
Definition truthy (s : string) : bool :=
  match s with EmptyString => false | _ => true end.

End PyStr.

(** [l[i]] with Python's negative indices. *)
Definition py_getitem {A} (l : list A) (i : Z) : result A :=
  let n := Z.of_nat (length l) in
  let j := if i <? 0 then i + n else i in
  if (j <? 0) || (n <=? j) then Raise (IndexError "list index out of range")
  else match nth_error l (Z.to_nat j) with
       | Some x => Ok x
       | None => Raise (IndexError "list index out of range")
       end.

(** ** Configuration and deletion records *)

Record markdown_config : Type := {
  md_file : option string;
  begin_string : string;
  end_string : string;
  tag_column : Z;      (* int(config['markdown']['tag_column']) *)
  date_column : Z      (* int(config['markdown']['date_column']) *)
}.

Record docker_hub_config : Type := {
  api_base_url : string;
  username : option string;
  password : option string;
  organization : string;
  repository : string
}.

Record config : Type := {
  date_format : string;
  docker_hub : docker_hub_config;
  json_file : option string;
  markdown : markdown_config
}.

(** [{'tags': [...], 'date': '...'}] *)
Record item : Type := {
  tags : list string;
  date : string
}.

(** ** The Markdown reader *)

Section Markdown.

Variable cfg : config.

Definition line_is_ignored (line : string) : bool :=
  PyStr.startswith line (begin_string (markdown cfg))
  || PyStr.startswith line (end_string (markdown cfg)).

Definition parse_md_line (md_line : string) : result item :=
  let md := PyStr.split "|" (PyStr.strip md_line) in
  if tag_column (markdown cfg) >? Z.of_nat (length md) - 1
  then Raise (IndexError "tag column is out of range.")
  else if date_column (markdown cfg) >? Z.of_nat (length md) - 1
  then Raise (IndexError "date column is out of range.")
  else
    rbind (py_getitem md (tag_column (markdown cfg))) (fun tags0 =>
    rbind (py_getitem md (date_column (markdown cfg))) (fun date0 =>
    let tags1 := PyStr.remove "`" (PyStr.strip tags0) in
    let date1 := PyStr.strip date0 in
    Ok {| tags := PyStr.split "," tags1; date := date1 |})).

(** The body of the [for line in md_file] loop of [get_readme_table], with
    the loop variables [parsing], [linenum] and [items]. *)
Fixpoint readme_loop (lines : list string) (parsing : bool) (linenum : Z)
         (items : list item) : result (list item) :=
  match lines with
  | [] => Ok items
  | line :: rest =>
      let parsing1 :=
        if PyStr.startswith line (begin_string (markdown cfg)) then true
        else parsing in
      let parsing2 :=
        if PyStr.startswith line (end_string (markdown cfg)) then false
        else parsing1 in
      if parsing1 && PyStr.startswith line "|" && negb (line_is_ignored line)
         && PyStr.truthy (PyStr.strip line)
      then
        let linenum1 := linenum + 1 in
        if linenum1 >? 2
        then rbind (parse_md_line line) (fun it =>
               readme_loop rest parsing2 linenum1 (items ++ [it]))
        else readme_loop rest parsing2 linenum1 items
      else readme_loop rest parsing2 linenum items
  end.

(** [get_readme_table], on the lines that [readlines()] returned. *)
Definition get_readme_table (md_lines : list string) : result (list item) :=
  readme_loop md_lines false 0 [].

End Markdown.

(** ** Shell-style wildcards: Python's [fnmatch]

    [fnmatch.fnmatch(name, pat)] translates the pattern into a regular
    expression and matches the whole name against it.  The model follows
    [fnmatch.translate]: [*] is any run of characters, [?] one character,
    [[seq]] one character of the set, [[!seq]] one character outside it; a
    [[] without a closing bracket stands for itself.  Names and patterns are
    compared as they are (POSIX [normcase]). *)

Module Fnmatch.

Inductive token : Type :=
| Star                                   (* [*] *)
| AnyChar                                (* [?], and the set [[!]] *)
| Never                                  (* a set that became empty *)
| Lit (c : ascii)
| CharSet (negated : bool) (chunks : list (list ascii)).

Definition is_char (a b : ascii) : bool := Ascii.eqb a b.

(** The first occurrence of [c]: what is before it and what is after. *)
Fixpoint span_until (c : ascii) (s : list ascii)
  : option (list ascii * list ascii) :=
  match s with
  | [] => None
  | a :: s' =>
      if is_char a c then Some ([], s')
      else match span_until c s' with
           | Some (pre, post) => Some (a :: pre, post)
           | None => None
           end
  end.

(** After a [[]: the text [pat[i:j]] up to the closing bracket and the
    rest of the pattern after it.  A [!] and then a []] that come first do
    not close the set. *)
Definition find_close (s : list ascii) : option (list ascii * list ascii) :=
  let (pre1, s1) := match s with
                    | a :: s' => if is_char a "!" then ([a], s') else ([], s)
                    | [] => ([], s)
                    end in
  let (pre2, s2) := match s1 with
                    | a :: s' => if is_char a "]" then ([a], s') else ([], s1)
                    | [] => ([], s1)
                    end in
  match span_until "]" s2 with
  | Some (mid, post) => Some (pre1 ++ pre2 ++ mid, post)
  | None => None
  end.

(** The [chunks] of a set: the text is cut at every hyphen that makes a
    range.  [skip] counts the next characters that cannot be such a hyphen
    (the search resumes at [k+3]); a hyphen that comes last is literal. *)
Fixpoint chunk_scan (s : list ascii) (skip : nat) (cur : list ascii)
  : list (list ascii) :=
  match s with
  | [] => [cur]
  | c :: s' =>
      match skip with
      | S k => chunk_scan s' k (cur ++ [c])
      | O =>
          if is_char c "-" && negb (Nat.eqb (length s') 0)
          then cur :: chunk_scan s' 2 []
          else chunk_scan s' 0 (cur ++ [c])
      end
  end.

Definition chunks_of (stuff : list ascii) : list (list ascii) :=
  match stuff with
  | a :: _ => chunk_scan stuff (if is_char a "!" then 2 else 1) []
  | [] => [[]]
  end.

Definition code (c : ascii) : nat := nat_of_ascii c.

(** One step of "remove empty ranges", taken from the right. *)
Definition drop_empty_range (c : list ascii) (acc : list (list ascii))
  : list (list ascii) :=
  match acc with
  | [] => [c]
  | c' :: acc' =>
      match c', rev c with
      | hi :: c'tl, lo :: _ =>
          if (code hi <? code lo)%nat
          then (removelast c ++ c'tl) :: acc'
          else c :: acc
      | _, _ => c :: acc
      end
  end.

Definition set_chunks (stuff : list ascii) : list (list ascii) :=
  fold_right drop_empty_range [] (chunks_of stuff).

(** The token of a set, from its chunks joined by hyphens. *)
Definition set_token (cs : list (list ascii)) : token :=
  match cs with
  | [[]] => Never
  | (a :: c) :: cs' =>
      if is_char a "!"
      then match c, cs' with
           | [], [] => AnyChar
           | _, _ => CharSet true (c :: cs')
           end
      else CharSet false cs
  | _ => CharSet false cs
  end.

(** [translate], with [fuel] at least the length of the pattern. *)
Fixpoint translate (fuel : nat) (pat : list ascii) (after_star : bool)
  : list token :=
  match fuel with
  | O => []
  | S fuel' =>
      match pat with
      | [] => []
      | c :: rest =>
          if is_char c "*" then
            if after_star then translate fuel' rest true
            else Star :: translate fuel' rest true
          else if is_char c "?" then AnyChar :: translate fuel' rest false
          else if is_char c "[" then
            match find_close rest with
            | None => Lit c :: translate fuel' rest false
            | Some (stuff, post) =>
                set_token (set_chunks stuff) :: translate fuel' post false
            end
          else Lit c :: translate fuel' rest false
      end
  end.

Fixpoint in_ranges (cs : list (list ascii)) (ch : ascii) : bool :=
  match cs with
  | c :: ((c' :: _) as cs') =>
      match rev c, c' with
      | lo :: _, hi :: _ =>
          ((code lo <=? code ch)%nat && (code ch <=? code hi)%nat)
      | _, _ => false
      end || in_ranges cs' ch
  | _ => false
  end.

Definition in_set (cs : list (list ascii)) (ch : ascii) : bool :=
  existsb (existsb (is_char ch)) cs || in_ranges cs ch.

Definition token_accepts (t : token) (ch : ascii) : bool :=
  match t with
  | Star => true
  | AnyChar => true
  | Never => false
  | Lit c => is_char ch c
  | CharSet negated cs => xorb negated (in_set cs ch)
  end.

(** Does the token list match the whole of [s]? *)
Fixpoint matches (ts : list token) (s : list ascii) : bool :=
  match ts with
  | [] => match s with [] => true | _ => false end
  | Star :: ts' =>
      (fix star (s : list ascii) : bool :=
         matches ts' s || match s with
                          | [] => false
                          | _ :: s' => star s'
                          end) s
  | t :: ts' =>
      match s with
      | [] => false
      | ch :: s' => token_accepts t ch && matches ts' s'
      end
  end.

(** [fnmatch.fnmatch(name, pat)] *)
Definition fnmatch (name pat : string) : bool :=
  let p := list_ascii_of_string pat in
  matches (translate (length p) p false) (list_ascii_of_string name).

End Fnmatch.

(** ** Dates

    A [datetime] object.  [utcoffset] is [None] for a naive date and the
    offset from UTC, in microseconds, for an aware one ([strptime] makes an
    aware date when the format holds [%z]). *)

Record datetime : Type := {
  year : Z; month : Z; day : Z;
  hour : Z; minute : Z; second : Z; microsecond : Z;
  utcoffset : option Z
}.

Definition datetime_fields (d : datetime) : list Z :=
  [year d; month d; day d; hour d; minute d; second d; microsecond d].

Fixpoint lex_compare (a b : list Z) : comparison :=
  match a, b with
  | x :: a', y :: b' =>
      match x ?= y with
      | Eq => lex_compare a' b'
      | c => c
      end
  | [], [] => Eq
  | [], _ :: _ => Lt
  | _ :: _, [] => Gt
  end.

(** The comparison of the fields, year first. *)
Definition datetime_compare (a b : datetime) : comparison :=
  lex_compare (datetime_fields a) (datetime_fields b).

Definition is_leap (y : Z) : bool :=
  (y mod 4 =? 0) && (negb (y mod 100 =? 0) || (y mod 400 =? 0)).

Definition days_in_month (y m : Z) : Z :=
  if m =? 2 then (if is_leap y then 29 else 28)
  else if (m =? 4) || (m =? 6) || (m =? 9) || (m =? 11) then 30
  else 31.

(** The days of the proleptic Gregorian calendar before the year. *)
Definition days_before_year (y : Z) : Z :=
  (y - 1) * 365 + (y - 1) / 4 - (y - 1) / 100 + (y - 1) / 400.

(** The days of the year before the month. *)
Definition days_before_month (y m : Z) : Z :=
  match m with
  | 1 => 0 | 2 => 31 | 3 => 59 | 4 => 90 | 5 => 120 | 6 => 151
  | 7 => 181 | 8 => 212 | 9 => 243 | 10 => 273 | 11 => 304 | _ => 334
  end + (if (2 <? m) && is_leap y then 1 else 0).

(** [d.toordinal()] *)
Definition toordinal (d : datetime) : Z :=
  days_before_year (year d) + days_before_month (year d) (month d) + day d.

(** The instant that the fields name, in microseconds since the start of
    day 0 of the calendar. *)
Definition wall_microseconds (d : datetime) : Z :=
  (((toordinal d * 24 + hour d) * 60 + minute d) * 60 + second d) * 1000000
  + microsecond d.

(** The comparison of [datetime] objects: two naive dates, or two aware
    dates with the same offset, compare by their fields; two aware dates
    with different offsets compare by the sign of their difference; a naive
    and an aware date cannot be ordered, which raises [TypeError]. *)
Definition py_compare (a b : datetime) : result comparison :=
  match utcoffset a, utcoffset b with
  | None, None => Ok (datetime_compare a b)
  | Some oa, Some ob =>
      if oa =? ob then Ok (datetime_compare a b)
      else Ok ((wall_microseconds a - oa) ?= (wall_microseconds b - ob))
  | _, _ => Raise TypeError
  end.

(** [a >= b] *)
Definition py_ge (a b : datetime) : result bool :=
  rbind (py_compare a b)
        (fun c => Ok (match c with Lt => false | _ => true end)).

(** What every [datetime] object satisfies. *)
Definition valid_date (d : datetime) : Prop :=
  1 <= month d <= 12 /\ 1 <= day d <= days_in_month (year d) (month d)
  /\ 0 <= hour d < 24 /\ 0 <= minute d < 60 /\ 0 <= second d < 60
  /\ 0 <= microsecond d < 1000000.

(** ** JSON values, requests and responses *)

#[local] Unset Elimination Schemes.
Inductive json : Type :=
| JNull
| JBool (b : bool)
| JNum (n : Z)
| JStr (s : string)
| JArr (l : list json)
| JObj (kv : list (string * json)).
#[local] Set Elimination Schemes.

(** Truth value of a decoded JSON value. *)
Definition py_truthy (j : json) : bool :=
  match j with
  | JNull => false
  | JBool b => b
  | JNum n => negb (n =? 0)
  | JStr s => PyStr.truthy s
  | JArr l => match l with [] => false | _ => true end
  | JObj kv => match kv with [] => false | _ => true end
  end.

Fixpoint assoc (k : string) (kv : list (string * json)) : option json :=
  match kv with
  | [] => None
  | (k', v) :: kv' => if String.eqb k k' then Some v else assoc k kv'
  end.

(** [j[k]] for a string key [k]: only a dict can be indexed so. *)
Definition py_getkey (j : json) (k : string) : result json :=
  match j with
  | JObj kv => match assoc k kv with
               | Some v => Ok v
               | None => Raise (KeyError k)
               end
  | _ => Raise TypeError
  end.

(** What [for i in j] iterates over: the elements of a list, the keys of a
    dict, the characters of a string. *)
Definition py_iter (j : json) : result (list json) :=
  match j with
  | JArr l => Ok l
  | JObj kv => Ok (map (fun p => JStr (fst p)) kv)
  | JStr s => Ok (map (fun c => JStr (String c EmptyString)) (list_ascii_of_string s))
  | _ => Raise TypeError
  end.

Inductive method : Type := GET | POST | DELETE.

(** A request of the session.  The constant [Content-type] header is left
    out; [bearer] is the value formatted into the [Authorization] header;
    [data] is the document that [json.dumps] serialises. *)
Record request : Type := {
  meth : method;
  url : string;
  bearer : option json;
  params : list (string * string);
  data : option json
}.

(** [json_body] is what [resp.json()] decodes; [None] when the body is not
    JSON. *)
Record response : Type := {
  status_code : Z;
  json_body : option json
}.

(** What the script runs against: the registry behind the session, the file
    system, and [datetime.strptime]. *)
Record system : Type := {
  World : Type;
  send : request -> World -> result response * World;
  strptime : string -> string -> result datetime;
  load_json : string -> result (list item);        (* list(json.load(f)) *)
  readlines : string -> result (list string)       (* open(p).readlines() *)
}.

(** ** The script *)

Section Program.

Variable sys : system.
Variable cfg : config.
(** [now = datetime.now()], taken once when the module is loaded; the call
    has no time zone argument, so the script's [now] is a naive date. *)
Variable now : datetime.

(** The state a run threads: the world behind the session, the requests
    sent so far and the lines printed so far. *)
Record state : Type := {
  world : World sys;
  log : list request;
  stdout : list string
}.

Definition M (A : Type) : Type := state -> result A * state.

Definition ret {A} (a : A) : M A := fun st => (Ok a, st).
Definition raise {A} (e : exn) : M A := fun st => (Raise e, st).
Definition out_of_fuel {A} : M A := fun st => (OutOfFuel, st).
Definition bind {A B} (m : M A) (k : A -> M B) : M B :=
  fun st =>
    match m st with
    | (Ok a, st') => k a st'
    | (Raise e, st') => (Raise e, st')
    | (OutOfFuel, st') => (OutOfFuel, st')
    end.
Definition lift {A} (r : result A) : M A := fun st => (r, st).

Notation "x <- m ;; k" := (bind m (fun x => k))
  (at level 100, m at next level, right associativity).
Notation "m ;;; k" := (bind m (fun _ => k))
  (at level 100, right associativity).

(** [session.request]: the request is logged, the world answers. *)
Definition http (rq : request) : M response :=
  fun st =>
    let (r, w) := send sys rq (world st) in
    (r, {| world := w; log := log st ++ [rq]; stdout := stdout st |}).

Definition print (line : string) : M unit :=
  fun st =>
    (Ok tt, {| world := world st; log := log st;
               stdout := stdout st ++ [line] |}).

(** [resp.raise_for_status()] raises for the 4xx and 5xx codes. *)
Definition is_http_error (resp : response) : bool :=
  (400 <=? status_code resp) && (status_code resp <? 600).

Definition raise_for_status (resp : response) : M unit :=
  if is_http_error resp then raise (HTTPError (status_code resp))
  else ret tt.

(** [resp.json()] *)
Definition resp_json (resp : response) : M json :=
  match json_body resp with
  | Some j => ret j
  | None => raise JSONDecodeError
  end.

Definition opt_json (o : option string) : json :=
  match o with Some s => JStr s | None => JNull end.

(** The request of [session.post(... + '/users/login', ...)]. *)
Definition login_request : request :=
  {| meth := POST;
     url := (api_base_url (docker_hub cfg) ++ "/users/login")%string;
     bearer := None; params := [];
     data := Some (JObj [("username", opt_json (username (docker_hub cfg)));
                         ("password", opt_json (password (docker_hub cfg)))]) |}.

Definition docker_hub_token : M json :=
  auth <- http login_request ;;
  raise_for_status auth ;;;
  content <- resp_json auth ;;
  lift (py_getkey content "token").

Definition tags_url : string :=
  ("/namespaces/" ++ organization (docker_hub cfg)
     ++ "/repositories/" ++ repository (docker_hub cfg) ++ "/tags")%string.

Definition list_params : list (string * string) :=
  [("page_size", "100"); ("ordering", "name")].

(** The request for the first page of the tags. *)
Definition list_request (token : json) : request :=
  {| meth := GET; url := (api_base_url (docker_hub cfg) ++ tags_url)%string;
     bearer := Some token; params := list_params; data := None |}.

Definition next_request (u : string) (token : json) : request :=
  {| meth := GET; url := u; bearer := Some token; params := []; data := None |}.

(** [session.get(_next, headers=headers)]: a value that is not a string
    has no URL scheme, and requests refuses it before anything is sent. *)
Definition get_next (_next token : json) : M response :=
  match _next with
  | JStr u => http (next_request u token)
  | _ => raise RequestException
  end.

(** [for i in results: if fnmatch.fnmatch(i['name'], pattern): ...] *)
Fixpoint collect (results : list json) (pattern : string)
         (matching_tags : list string) : result (list string) :=
  match results with
  | [] => Ok matching_tags
  | i :: rest =>
      rbind (py_getkey i "name") (fun name =>
        match name with
        | JStr n =>
            if Fnmatch.fnmatch n pattern
            then collect rest pattern (matching_tags ++ [n])
            else collect rest pattern matching_tags
        | _ => Raise TypeError
        end)
  end.

(** The [while True] loop of [tags_matching_pattern].  The result [None]
    is Python's [None]: after [break] the function ends without a
    [return] statement. *)
Fixpoint pagination (fuel : nat) (token : json) (pattern : string)
         (_next : json) (resp : response) (matching_tags : list string)
  : M (option (list string)) :=
  match fuel with
  | O => out_of_fuel
  | S fuel' =>
      fetched <-
        (if py_truthy _next then
           resp' <- get_next _next token ;;
           if is_http_error resp' then
             if status_code resp' =? 404 then ret None   (* break *)
             else raise (HTTPError (status_code resp'))
           else ret (Some resp')
         else ret (Some resp)) ;;
      match fetched with
      | None => ret None
      | Some resp1 =>
          body <- resp_json resp1 ;;
          results <- lift (rbind (py_getkey body "results") py_iter) ;;
          matching1 <- lift (collect results pattern matching_tags) ;;
          next1 <- lift (py_getkey body "next") ;;
          if py_truthy next1
          then pagination fuel' token pattern next1 resp1 matching1
          else ret (Some matching1)
      end
  end.

Definition tags_matching_pattern (fuel : nat) (pattern : string)
  : M (option (list string)) :=
  token <- docker_hub_token ;;
  resp <- http (list_request token) ;;
  pagination fuel token pattern JNull resp [].

Definition parse_date (date : string) : result datetime :=
  strptime sys date (date_format cfg).

Definition file_given (f : option string) : option string :=
  match f with
  | Some p => if PyStr.truthy p then Some p else None
  | None => None
  end.

Definition json_tags (path : string) : result (list item) :=
  load_json sys path.

Definition get_tag_list : result (list item) :=
  rbind (match file_given (json_file cfg) with
         | Some p => rbind (json_tags p) (fun l => Ok [l])
         | None => Ok []
         end) (fun tags1 =>
  rbind (match file_given (md_file (markdown cfg)) with
         | Some p =>
             rbind (rbind (readlines sys p) (get_readme_table cfg))
                   (fun l => Ok (tags1 ++ [l]))
         | None => Ok tags1
         end) (fun tags2 => Ok (concat tags2))).

(** [for pattern in item['tags']] *)
Fixpoint match_patterns (fuel : nat) (patterns : list string)
         (tags_list : list (option (list string)))
  : M (list (option (list string))) :=
  match patterns with
  | [] => ret tags_list
  | pattern :: rest =>
      t <- tags_matching_pattern fuel (PyStr.strip pattern) ;;
      match_patterns fuel rest (tags_list ++ [t])
  end.

(** [for item in get_tag_list()] *)
Fixpoint scan_items (fuel : nat) (items : list item)
         (tags_list : list (option (list string)))
  : M (list (option (list string))) :=
  match items with
  | [] => ret tags_list
  | it :: rest =>
      d <- lift (parse_date (date it)) ;;
      due <- lift (py_ge now d) ;;
      if due : bool
      then tags_list1 <- match_patterns fuel (tags it) tags_list ;;
           scan_items fuel rest tags_list1
      else scan_items fuel rest tags_list
  end.

(** [[i for row in tags_list for i in row]]: a row that is [None] cannot
    be iterated. *)
Fixpoint flatten (rows : list (option (list string))) : result (list string) :=
  match rows with
  | [] => Ok []
  | None :: _ => Raise TypeError
  | Some row :: rest => rbind (flatten rest) (fun l => Ok (row ++ l))
  end.

Definition tags_to_delete (fuel : nat) : M (list string) :=
  items <- lift get_tag_list ;;
  tags_list <- scan_items fuel items [] ;;
  if (0 <? Z.of_nat (length tags_list)) then lift (flatten tags_list)
  else ret [].

Definition delete_url (tag : string) : string :=
  (api_base_url (docker_hub cfg) ++ (tags_url ++ "/" ++ tag))%string.

Definition delete_request (token : json) (tag : string) : request :=
  {| meth := DELETE; url := delete_url tag; bearer := Some token;
     params := []; data := None |}.

(** [for tag in tags_to_delete()] of [delete_expired_tags] *)
Fixpoint delete_loop (token : json) (tags0 : list string)
         (deleted : list string) : M (list string) :=
  match tags0 with
  | [] => ret deleted
  | tag :: rest =>
      resp <- http (delete_request token tag) ;;
      raise_for_status resp ;;;
      delete_loop token rest (deleted ++ [tag])
  end.

Definition delete_expired_tags (fuel : nat) : M (list string) :=
  token <- docker_hub_token ;;
  tags0 <- tags_to_delete fuel ;;
  delete_loop token tags0 [].

Definition img_tag (_tag : string) : string :=
  (organization (docker_hub cfg) ++ "/" ++ repository (docker_hub cfg)
     ++ ":" ++ _tag)%string.

Definition deleted_line (_tag : string) : string :=
  ("> Deleted " ++ img_tag _tag)%string.

Fixpoint print_deleted (_tags : list string) : M unit :=
  match _tags with
  | [] => ret tt
  | _tag :: rest => print (deleted_line _tag) ;;; print_deleted rest
  end.

(** The [__main__] block. *)
Definition main (fuel : nat) : M unit :=
  _tags <- tags_to_delete fuel ;;
  if (0 <? Z.of_nat (length _tags))
  then delete_expired_tags fuel ;;; print_deleted _tags
  else print "There are no tags to delete.".

(** The exit status of the interpreter: an exception that nobody catches
    ends the process with status 1; a loop that never ends gives none. *)
Definition exit_status {A} (r : result A) : option Z :=
  match r with
  | Ok _ => Some 0
  | Raise _ => Some 1
  | OutOfFuel => None
  end.

End Program.

(** ** An instance of [strptime]: the formats ['%B %d, %Y'] and
    ['%B %d, %Y %z']

    The format becomes the regular expression "month name, white space, day
    of one or two digits, comma, white space, year of four digits", and for
    [%z] "white space, UTC offset"; it is matched without regard to case
    against the whole string; the date must exist.  With [%z] the result is
    an aware date. *)

Module Strptime.

Definition month_names : list string :=
  ["january"; "february"; "march"; "april"; "may"; "june"; "july";
   "august"; "september"; "october"; "november"; "december"].

Definition lower (c : ascii) : ascii :=
  let n := nat_of_ascii c in
  if ((65 <=? n) && (n <=? 90))%nat then ascii_of_nat (n + 32) else c.

(** [s] without the prefix [p], compared without regard to case. *)
Fixpoint strip_prefix_ci (p s : string) : option string :=
  match p, s with
  | EmptyString, _ => Some s
  | String a p', String b s' =>
      if Ascii.eqb a (lower b) then strip_prefix_ci p' s' else None
  | String _ _, EmptyString => None
  end.

Fixpoint find_month (names : list string) (k : Z) (s : string)
  : option (Z * string) :=
  match names with
  | [] => None
  | n :: names' =>
      match strip_prefix_ci n s with
      | Some rest => Some (k, rest)
      | None => find_month names' (k + 1) s
      end
  end.

Definition digit (c : ascii) : option Z :=
  let n := nat_of_ascii c in
  if ((48 <=? n) && (n <=? 57))%nat then Some (Z.of_nat n - 48) else None.

(** [\s+]: at least one white space character. *)
Definition spaces (s : string) : option string :=
  match s with
  | String c s' => if PyStr.isspace c then Some (PyStr.lstrip s') else None
  | EmptyString => None
  end.

(** [%d] followed by the comma of the format. *)
Definition day_comma (s : string) : option (Z * string) :=
  match s with
  | String a (String b (String c rest)) =>
      match digit a, digit b with
      | Some x, Some y =>
          let d := 10 * x + y in
          if Ascii.eqb c "," && (1 <=? d) && (d <=? 31) then Some (d, rest)
          else None
      | Some x, None =>
          if Ascii.eqb b "," && (1 <=? x) then Some (x, String c rest)
          else None
      | None, _ => None
      end
  | String a (String b EmptyString) =>
      match digit a with
      | Some x =>
          if Ascii.eqb b "," && (1 <=? x) then Some (x, EmptyString) else None
      | None => None
      end
  | _ => None
  end.

(** [%Y]: four digits, and what follows them. *)
Definition year4 (s : string) : option (Z * string) :=
  match s with
  | String a (String b (String c (String d rest))) =>
      match digit a, digit b, digit c, digit d with
      | Some x, Some y, Some z, Some t =>
          Some (1000 * x + 100 * y + 10 * z + t, rest)
      | _, _, _, _ => None
      end
  | _ => None
  end.

(** Month, day and year of ['%B %d, %Y'], and what follows the year. *)
Definition month_day_year (s : string) : option (Z * Z * Z * string) :=
  match find_month month_names 1 s with
  | None => None
  | Some (m, s1) =>
      match spaces s1 with
      | None => None
      | Some s2 =>
          match day_comma s2 with
          | None => None
          | Some (d, s3) =>
              match spaces s3 with
              | None => None
              | Some s4 =>
                  match year4 s4 with
                  | None => None
                  | Some (y, s5) => Some (y, m, d, s5)
                  end
              end
          end
      end
  end.

(** [datetime(y, m, d, tzinfo=...)]: the date must exist. *)
Definition make_date (y m d : Z) (offset : option Z) : result datetime :=
  if (1 <=? y) && (d <=? days_in_month y m)
  then Ok {| year := y; month := m; day := d;
             hour := 0; minute := 0; second := 0; microsecond := 0;
             utcoffset := offset |}
  else Raise ValueError.

Definition opt_colon (s : string) : bool * string :=
  match s with
  | String c r => if Ascii.eqb c ":" then (true, r) else (false, s)
  | EmptyString => (false, s)
  end.

(** Two digits below 60, and what follows them. *)
Definition sixty (s : string) : option (Z * string) :=
  match s with
  | String a (String b r) =>
      match digit a, digit b with
      | Some x, Some y => if x <=? 5 then Some (10 * x + y, r) else None
      | _, _ => None
      end
  | _ => None
  end.

(** At most [k] digits up to the end of the string, read as the first
    digits of a number of [k] more digits than were read. *)
Fixpoint fraction (s : string) (k : nat) (acc : Z) : option Z :=
  match s with
  | EmptyString => Some (acc * 10 ^ Z.of_nat k)
  | String c r =>
      match k with
      | O => None
      | S k' =>
          match digit c with
          | Some x => fraction r k' (acc * 10 + x)
          | None => None
          end
      end
  end.

(** The seconds of an offset and their fraction, up to the end. *)
Definition offset_seconds (colon1 : bool) (s : string) : option Z :=
  match s with
  | EmptyString => Some 0
  | _ =>
      let (colon2, s1) := opt_colon s in
      if negb (Bool.eqb colon1 colon2) then None
      else
        match sixty s1 with
        | None => None
        | Some (ss, s2) =>
            match s2 with
            | EmptyString => Some (ss * 1000000)
            | String c (String d r) =>
                if Ascii.eqb c "."
                then match fraction (String d r) 6 0 with
                     | Some f => Some (ss * 1000000 + f)
                     | None => None
                     end
                else None
            | _ => None
            end
        end
  end.

(** [%z]: [Z], or a sign, the hours, the minutes and maybe the seconds; the
    result is the offset in microseconds, which must be less than a day. *)
Definition utc_offset (s : string) : option Z :=
  match s with
  | String a EmptyString => if Ascii.eqb a "Z" then Some 0 else None
  | String sg (String h1 (String h2 s1)) =>
      match (if Ascii.eqb sg "+" then Some 1
             else if Ascii.eqb sg "-" then Some (-1) else None),
            digit h1, digit h2 with
      | Some sign, Some x, Some y =>
          let (colon1, s2) := opt_colon s1 in
          match sixty s2 with
          | None => None
          | Some (mm, s3) =>
              match offset_seconds colon1 s3 with
              | None => None
              | Some us =>
                  let total := ((10 * x + y) * 3600 + mm * 60) * 1000000 + us in
                  if total <? 86400 * 1000000 then Some (sign * total)
                  else None
              end
          end
      | _, _, _ => None
      end
  | _ => None
  end.

Definition parse_month_day_year (s : string) : result datetime :=
  match month_day_year s with
  | Some (y, m, d, EmptyString) => make_date y m d None
  | _ => Raise ValueError
  end.

Definition parse_month_day_year_offset (s : string) : result datetime :=
  match month_day_year s with
  | Some (y, m, d, s1) =>
      match spaces s1 with
      | None => Raise ValueError
      | Some s2 =>
          match utc_offset s2 with
          | None => Raise ValueError
          | Some off => make_date y m d (Some off)
          end
      end
  | None => Raise ValueError
  end.

Definition default_format : string := "%B %d, %Y".
Definition offset_format : string := "%B %d, %Y %z".

(** The instance: it knows these two formats only. *)
Definition strptime (date_string format : string) : result datetime :=
  if String.eqb format default_format then parse_month_day_year date_string
  else if String.eqb format offset_format
       then parse_month_day_year_offset date_string
       else Raise ValueError.

End Strptime.

(** ** What the statements below talk about *)

Section Markdown_rows.

Variable cfg : config.

(** The lines of the file that reach the counter [linenum]: they lie in an
    active region, begin with a pipe, are no marker line and are not
    blank.  [parsing] is the flag when the first line is read. *)
Fixpoint candidate_rows (lines : list string) (parsing : bool) : list string :=
  match lines with
  | [] => []
  | line :: rest =>
      let parsing1 :=
        if PyStr.startswith line (begin_string (markdown cfg)) then true
        else parsing in
      let parsing2 :=
        if PyStr.startswith line (end_string (markdown cfg)) then false
        else parsing1 in
      if parsing1 && PyStr.startswith line "|" && negb (line_is_ignored cfg line)
         && PyStr.truthy (PyStr.strip line)
      then line :: candidate_rows rest parsing2
      else candidate_rows rest parsing2
  end.

(** The flag [parsing] after the lines have been read. *)
Fixpoint parsing_after (lines : list string) (parsing : bool) : bool :=
  match lines with
  | [] => parsing
  | line :: rest =>
      let parsing1 :=
        if PyStr.startswith line (begin_string (markdown cfg)) then true
        else parsing in
      parsing_after rest
        (if PyStr.startswith line (end_string (markdown cfg)) then false
         else parsing1)
  end.

(** The fields [md] that [parse_md_line] indexes. *)
Definition row_fields (md_line : string) : list string :=
  PyStr.split "|" (PyStr.strip md_line).

End Markdown_rows.

(** The cells of a Markdown table row as a reader of the table counts
    them: what stands between the pipes, the pipe that opens the row and
    the pipe that closes it being delimiters. *)
Definition table_cells (md_line : string) : list string :=
  let md := PyStr.split "|" (PyStr.strip md_line) in
  let md1 := match md with
             | EmptyString :: t => t
             | _ => md
             end in
  match rev md1 with
  | EmptyString :: t => rev t
  | _ => md1
  end.

Definition is_delete (rq : request) : bool :=
  match meth rq with DELETE => true | _ => false end.



(** A decoded page: its [next] value and the names of its [results]. *)
Definition is_page (j : json) (names : list string) (next : json) : Prop :=
  py_getkey j "next" = Ok next /\
  exists rs, py_getkey j "results" = Ok (JArr rs) /\
             map (fun r => py_getkey r "name") rs
             = map (fun n => Ok (JStr n)) names.

(** How a pagination ends: with a page whose [next] is null, or with a 404
    to the request for the next page. *)
Inductive page_end : Type := EndOfList | NotFound.

Section Runs.

Variable sys : system.
Variable cfg : config.
Variable now : datetime.

(** [pages_from token w resp pages e w']: [resp] is a page; following the
    [next] links from the world [w] the server answers the further pages
    of [pages], and the pagination ends as [e] says in the world [w']. *)
Inductive pages_from (token : json)
  : World sys -> response -> list (list string) -> page_end -> World sys -> Prop :=
| pages_last : forall w resp j names next,
    json_body resp = Some j -> is_page j names next ->
    py_truthy next = false ->
    pages_from token w resp [names] EndOfList w
| pages_404 : forall w resp j names u resp' w',
    json_body resp = Some j -> is_page j names (JStr u) ->
    PyStr.truthy u = true ->
    send sys (next_request u token) w = (Ok resp', w') ->
    status_code resp' = 404 ->
    pages_from token w resp [names] NotFound w'
| pages_more : forall w resp j names u resp' w' rest e wend,
    json_body resp = Some j -> is_page j names (JStr u) ->
    PyStr.truthy u = true ->
    send sys (next_request u token) w = (Ok resp', w') ->
    is_http_error resp' = false ->
    pages_from token w' resp' rest e wend ->
    pages_from token w resp (names :: rest) e wend.

(** [listing w pages e w']: from the world [w] the login succeeds and the
    server answers the pages [pages] of the tag list. *)
Inductive listing : World sys -> list (list string) -> page_end -> World sys -> Prop :=
| listing_intro : forall w auth w1 content token resp w2 pages e wend,
    send sys (login_request cfg) w = (Ok auth, w1) ->
    is_http_error auth = false ->
    json_body auth = Some content ->
    py_getkey content "token" = Ok token ->
    send sys (list_request cfg token) w1 = (Ok resp, w2) ->
    pages_from token w2 resp pages e wend ->
    listing w pages e wend.

(** [deletes_ok token w l w']: from [w] the server answers every delete of
    [l], in order, with a status that is no error. *)
Inductive deletes_ok (token : json) : World sys -> list string -> World sys -> Prop :=
| deletes_nil : forall w, deletes_ok token w [] w
| deletes_cons : forall w tag resp w' rest wend,
    send sys (delete_request cfg token tag) w = (Ok resp, w') ->
    is_http_error resp = false ->
    deletes_ok token w' rest wend ->
    deletes_ok token w (tag :: rest) wend.


(** The tags of [live] that match the pattern, in the order of [live]. *)
Definition matching (pattern : string) (live : list string) : list string :=
  filter (fun n => Fnmatch.fnmatch n pattern) live.

End Runs.

(** ** Concrete systems to run the script against *)

Module Fixture.

Definition example_config (json_path md_path : option string)
           (tag_col date_col : Z) : config :=
  {| date_format := Strptime.default_format;
     docker_hub := {| api_base_url := "https://hub.docker.com/v2";
                      username := Some "user"; password := Some "secret";
                      organization := "org"; repository := "repo" |};
     json_file := json_path;
     markdown := {| md_file := md_path;
                    begin_string := "<!-- BEGIN deletion_table -->";
                    end_string := "<!-- END deletion_table -->";
                    tag_column := tag_col; date_column := date_col |} |}.

(** Only a JSON source, the default columns. *)
Definition json_config : config := example_config (Some "tags.json") None 1 2.

(** A server that plays a script: it answers the requests with the
    responses of a tape, one after the other, whatever is asked; when the
    tape is used up the connection fails. *)
Definition tape_send (rq : request) (w : list (result response))
  : result response * list (result response) :=
  match w with
  | r :: w' => (r, w')
  | [] => (Raise RequestException, [])
  end.

Definition tape_system (json_items : list item) (md_lines : list string)
  : system :=
  {| World := list (result response);
     send := tape_send;
     strptime := Strptime.strptime;
     load_json := fun _ => Ok json_items;
     readlines := fun _ => Ok md_lines |}.

Definition start {sys : system} (w : World sys) : state sys :=
  {| world := w; log := []; stdout := [] |}.

Definition page_json (names : list string) (next : json) : json :=
  JObj [("count", JNum (Z.of_nat (length names)));
        ("next", next);
        ("previous", JNull);
        ("results", JArr (map (fun n => JObj [("name", JStr n)]) names))].

Definition login_ok : result response :=
  Ok {| status_code := 200; json_body := Some (JObj [("token", JStr "jwt")]) |}.

Definition page_ok (names : list string) (next : json) : result response :=
  Ok {| status_code := 200; json_body := Some (page_json names next) |}.

Definition status_only (code : Z) : result response :=
  Ok {| status_code := code; json_body := None |}.

Definition error_body (code : Z) : result response :=
  Ok {| status_code := code;
        json_body := Some (JObj [("detail", JStr "error")]) |}.

(** A registry that keeps its tags: the world is the list of the tags of
    the repository; a listing serves them in pages of [page_size] tags, a
    delete removes the tag. *)
Fixpoint pages_of (fuel page_size : nat) (l : list string) : list (list string) :=
  match fuel with
  | O => []
  | S fuel' =>
      match l with
      | [] => []
      | _ => firstn page_size l :: pages_of fuel' page_size (skipn page_size l)
      end
  end.

Fixpoint bangs (k : nat) : string :=
  match k with
  | O => EmptyString
  | S k' => String "!" (bangs k')
  end.

(** The link to the page [k] is the number of its trailing [!]. *)
Definition page_link (k : nat) : string := ("https://next/" ++ bangs k)%string.
Definition link_page (u : string) : nat := (String.length u - 13)%nat.

Fixpoint last_segment (acc u : string) : string :=
  match u with
  | EmptyString => acc
  | String c u' =>
      if Ascii.eqb c "/" then last_segment EmptyString u'
      else last_segment (acc ++ String c EmptyString)%string u'
  end.

Definition registry_send (page_size : nat) (rq : request) (w : list string)
  : result response * list string :=
  match meth rq with
  | POST => (login_ok, w)
  | GET =>
      let k := match params rq with
               | [] => link_page (url rq)
               | _ => O
               end in
      let pages := pages_of (length w) page_size w in
      match nth_error pages k with
      | Some names =>
          (page_ok names (if (S k <? length pages)%nat
                          then JStr (page_link (S k)) else JNull), w)
      | None =>
          match k with
          | O => (page_ok [] JNull, w)
          | _ => (error_body 404, w)
          end
      end
  | DELETE =>
      let tag := last_segment EmptyString (url rq) in
      if existsb (String.eqb tag) w
      then (status_only 204, filter (fun t => negb (String.eqb tag t)) w)
      else (error_body 404, w)
  end.

Definition registry_system (page_size : nat) (json_items : list item)
  : system :=
  {| World := list string;
     send := registry_send page_size;
     strptime := Strptime.strptime;
     load_json := fun _ => Ok json_items;
     readlines := fun _ => Ok [] |}.

(** "now" of the examples: noon of 4 November 2026. *)
Definition a_now : datetime :=
  {| year := 2026; month := 11; day := 4; hour := 12; minute := 0;
     second := 0; microsecond := 0; utcoffset := None |}.

(** A file with two table regions. *)
Definition two_regions_head : list string :=
  ["<!-- BEGIN deletion_table -->";
   "| Tag | Date |";
   "|-----|------|";
   "| `1.*`, `2.*` | January 01, 2020 |";
   "<!-- END deletion_table -->"].

Definition two_regions_tail : list string :=
  ["Some text.";
   "<!-- BEGIN deletion_table -->";
   "| Tag | Date |";
   "|-----|------|";
   "| `3.*` | January 01, 2021 |";
   "<!-- END deletion_table -->"].

End Fixture.

(** ** Computations that send no request of a given kind *)

Section Quiet.

Variable sys : system.

(** [quiet p m]: a run of [m] sends no request that satisfies [p] and
    prints nothing. *)
Definition quiet {A} (p : request -> bool) (m : M sys A) : Prop :=
  forall st r st',
    m st = (r, st') ->
    filter p (log sys st') = filter p (log sys st)
    /\ stdout sys st' = stdout sys st.

End Quiet.

(** What the outcome of a pagination is: the matching names when the last
    page has no [next]; [None] when the request for a next page is
    answered 404, since the loop is then left by [break] and the function
    ends without a [return]. *)
Definition outcome (e : page_end) (l : list string) : option (list string) :=
  match e with
  | EndOfList => Some l
  | NotFound => None
  end.

(** ** Scripts for the tape *)

Module Script.

Import Fixture.

(** Three pages with [next] links, then a 404 to the fourth request. *)
Definition three_pages_then_404 : list (result response) :=
  [login_ok;
   page_ok ["1.0"; "1.1"] (JStr "https://next/2");
   page_ok ["1.2"; "2.0"] (JStr "https://next/3");
   page_ok ["2.1"] (JStr "https://next/4");
   error_body 404].

(** The first page is answered 500, with a body that is a page. *)
Definition first_page_500 : list (result response) :=
  [login_ok;
   Ok {| status_code := 500;
         json_body := Some (page_json ["1.0"; "2.0"] JNull) |}].

(** The first page is answered 401, with the body of an error. *)
Definition first_page_401 : list (result response) :=
  [login_ok; error_body 401].

Definition old_record (patterns : list string) : item :=
  {| tags := patterns; date := "January 01, 2020" |}.

(** A record whose date does not match the default format. *)
Definition bad_record : item := {| tags := ["2.*"]; date := "13/45/2024" |}.

(** The two passes of the script over a repository with the given tags,
    every one of them matched: the listing of the main program, the login
    of [delete_expired_tags] and its own listing. *)
Definition two_listings (names : list string) : list (result response) :=
  [login_ok; page_ok names JNull; login_ok; login_ok; page_ok names JNull].

(** Three tags are matched; the second delete is answered 500. *)
Definition second_delete_500 : list (result response) :=
  two_listings ["a"; "b"; "c"]
    ++ [status_only 204; error_body 500; status_only 204].

(** Two tags are matched; the first delete is answered 304. *)
Definition first_delete_304 : list (result response) :=
  two_listings ["a"; "b"] ++ [status_only 304; status_only 204].

(** The login is refused. *)
Definition login_401 : list (result response) := [error_body 401].

End Script.

(** ** A repository for the examples *)

Module Repo.

Import Fixture.

Definition live : list string := ["1.0"; "1.2.3"; "2.0"].

(** One record, due, with the patterns that the Markdown row
    [| `1.*`, `2.*` | January 01, 2020 |] gives. *)
Definition row_record : item :=
  {| tags := ["1.*"; " 2.*"]; date := "January 01, 2020" |}.

(** A registry that serves two tags on a page. *)
Definition sys (items : list item) : system := registry_system 2 items.

End Repo.

(** ** More systems and data for the examples *)

Module Fixture2.

Import Fixture.

(** A server whose every page carries a link to a next page. *)
Definition endless_system : system :=
  {| World := unit;
     send := fun rq w =>
               match meth rq with
               | POST => (login_ok, w)
               | _ => (page_ok ["a"] (JStr "https://next/again"), w)
               end;
     strptime := Strptime.strptime;
     load_json := fun _ => Ok [];
     readlines := fun _ => Ok [] |}.

(** One page with a link, then a 503 to the request for the next page. *)
Definition next_page_503 : list (result response) :=
  [login_ok; page_ok ["1.0"] (JStr "https://next/2"); error_body 503].

(** A record that is not due at [a_now]. *)
Definition future_record (patterns : list string) : item :=
  {| tags := patterns; date := "January 01, 2030" |}.

(** Both sources are configured. *)
Definition both_config : config :=
  example_config (Some "tags.json") (Some "README.md") 1 2.

(** A JSON source whose dates carry a UTC offset: [DATE_FORMAT] is
    ['%B %d, %Y %z']. *)
Definition offset_config : config :=
  {| date_format := Strptime.offset_format;
     docker_hub := docker_hub json_config;
     json_file := json_file json_config;
     markdown := markdown json_config |}.

Definition offset_record (patterns : list string) : item :=
  {| tags := patterns; date := "January 01, 2020 +0000" |}.

Definition one_table : list string :=
  ["# Tags";
   "| not | a row |";
   "<!-- BEGIN deletion_table -->";
   "| Tag | Date |";
   "|-----|------|";
   "| `1.*`, `2.*` | January 01, 2020 |";
   "| `3.0` | January 01, 2030 |";
   "<!-- END deletion_table -->";
   "| after | the table |"].

End Fixture2.

(** ** The rows a pass is to return *)

Section Due_rows.

Variable sys : system.
Variable cfg : config.
Variable now : datetime.

(** Is the record due?  [None] when its date does not parse, or parses to
    a date that cannot be compared with [now]. *)
Definition is_due (it : item) : option bool :=
  match rbind (parse_date sys cfg (date it)) (py_ge now) with
  | Ok due => Some due
  | _ => None
  end.

(** For the tags [live]: one row for every pattern of every due record, in
    the order of the records and of their patterns. *)
Definition due_rows (live : list string) (items : list item)
  : list (list string) :=
  flat_map (fun it =>
              match is_due it with
              | Some true =>
                  map (fun p => matching (PyStr.strip p) live) (tags it)
              | _ => []
              end) items.

End Due_rows.

(** ** Shapes of lines, strings and patterns *)

(** A line of a table: it begins with a pipe and is no marker line. *)
Definition is_row (cfg : config) (line : string) : Prop :=
  PyStr.startswith line "|" = true /\ line_is_ignored cfg line = false.

(** Does the character occur in the string? *)
Fixpoint contains (c : ascii) (s : string) : bool :=
  match s with
  | EmptyString => false
  | String a s' => Ascii.eqb a c || contains c s'
  end.

(** A pattern without wildcard: no [*], no [?] and no [[]. *)
Definition literal_char (c : ascii) : bool :=
  negb (Fnmatch.is_char c "*" || Fnmatch.is_char c "?" || Fnmatch.is_char c "[").

Definition literal (p : string) : bool :=
  forallb literal_char (list_ascii_of_string p).

(** ** More scripts *)

Module Script2.

Import Fixture.

(** The login is answered 200 with a body that has no token. *)
Definition login_without_token : list (result response) :=
  [Ok {| status_code := 200;
         json_body := Some (JObj [("detail", JStr "try later")]) |}].

(** Between the two passes of the script the tag [b] appears: the listing
    of the main program shows [a], the listing of [delete_expired_tags]
    shows [a] and [b]. *)
Definition tag_appears : list (result response) :=
  [login_ok; page_ok ["a"] JNull;
   login_ok; login_ok; page_ok ["a"; "b"] JNull;
   status_only 204; status_only 204].

(** A table whose second row is too short for the date column. *)
Definition short_row_table : list string :=
  ["<!-- BEGIN deletion_table -->";
   "| Tag | Date |";
   "|-----|------|";
   "| `1.*` | January 01, 2020 |";
   "| `2.*`";
   "| `3.*` | January 01, 2020 |";
   "<!-- END deletion_table -->"].

End Script2.

(** ** How a computation fails *)

(** A failure: an exception, or a loop that does not end. *)
Inductive failure : Type :=
| Raised (e : exn)
| Endless.

Definition failed {A} (r : result A) : option failure :=
  match r with
  | Ok _ => None
  | Raise e => Some (Raised e)
  | OutOfFuel => Some Endless
  end.

(** ** The requests of the listings *)


Section Only.

Variable sys : system.


End Only.

(** * Properties *)

(** ** Results *)

Lemma rbind_ok_id {A} (r : result (list A)) :
  rbind r (fun l => Ok ([] ++ l)) = r.
Proof. destruct r; reflexivity. Qed.

Lemma rmap_app {A B} (f : A -> result B) (l1 l2 : list A) :
  rmap f (l1 ++ l2)
  = rbind (rmap f l1) (fun a => rbind (rmap f l2) (fun b => Ok (a ++ b))).
Proof.
  induction l1 as [|x l1 IH]; simpl.
  - destruct (rmap f l2); reflexivity.
  - destruct (f x) as [y| |]; simpl; try reflexivity.
    rewrite IH. destruct (rmap f l1); simpl; try reflexivity.
    destruct (rmap f l2); reflexivity.
Qed.

(** ** The Markdown reader *)

Section Markdown_facts.

Variable cfg : config.

Lemma candidate_rows_app (l1 l2 : list string) (parsing : bool) :
  candidate_rows cfg (l1 ++ l2) parsing
  = candidate_rows cfg l1 parsing
    ++ candidate_rows cfg l2 (parsing_after cfg l1 parsing).
Proof.
  revert parsing. induction l1 as [|line l1 IH]; intro parsing; simpl.
  - reflexivity.
  - destruct (_ && _ && _ && _); simpl; rewrite IH; reflexivity.
Qed.

(** The loop of [get_readme_table] drops candidate rows until the counter
    has passed 2 and parses every later one. *)
Lemma readme_loop_rows (lines : list string) :
  forall (parsing : bool) (linenum : Z) (items : list item),
    0 <= linenum ->
    readme_loop cfg lines parsing linenum items
    = rbind (rmap (parse_md_line cfg)
               (skipn (Z.to_nat (2 - linenum)) (candidate_rows cfg lines parsing)))
            (fun l => Ok (items ++ l)).
Proof.
  induction lines as [|line rest IH]; intros parsing linenum items Hn.
  - simpl. rewrite skipn_nil. simpl. rewrite app_nil_r. reflexivity.
  - cbn [readme_loop candidate_rows].
    destruct (_ && _ && _ && _).
    + destruct (linenum + 1 >? 2) eqn:Hc.
      * apply Z.gtb_lt in Hc.
        replace (Z.to_nat (2 - linenum)) with O by lia.
        cbn [skipn rmap].
        destruct (parse_md_line cfg line) as [it| |]; simpl; try reflexivity.
        rewrite IH by lia.
        replace (Z.to_nat (2 - (linenum + 1))) with O by lia.
        cbn [skipn].
        destruct (rmap _ _); simpl; try reflexivity.
        rewrite <- app_assoc. reflexivity.
      * assert (Hle : linenum + 1 <= 2)
          by (destruct (Z.gtb_spec (linenum + 1) 2); [discriminate | lia]).
        replace (Z.to_nat (2 - linenum))
          with (S (Z.to_nat (2 - (linenum + 1)))) by lia.
        cbn [skipn]. apply IH. lia.
    + apply IH. exact Hn.
Qed.

End Markdown_facts.

(** C10. The counter that skips the header and the separator is global to
    the file: [get_readme_table] drops the first two candidate rows of the
    whole file and parses all the others; so when a first part of the file
    already holds two candidate rows, every candidate row of what follows,
    the header and separator rows of a later table region among them, is
    parsed and returned as a record. *)
Theorem get_readme_table_global_counter (cfg : config) (lines : list string) :
  get_readme_table cfg lines
  = rmap (parse_md_line cfg) (skipn 2 (candidate_rows cfg lines false))
  /\ forall l1 l2 : list string,
      lines = l1 ++ l2 ->
      (2 <= length (candidate_rows cfg l1 false))%nat ->
      get_readme_table cfg lines
      = rmap (parse_md_line cfg)
          (skipn 2 (candidate_rows cfg l1 false)
             ++ candidate_rows cfg l2 (parsing_after cfg l1 false)).
Proof.
  assert (H : get_readme_table cfg lines
              = rmap (parse_md_line cfg)
                  (skipn 2 (candidate_rows cfg lines false))).
  { unfold get_readme_table. rewrite readme_loop_rows by lia.
    apply rbind_ok_id. }
  split; [exact H|].
  intros l1 l2 -> Hlen. rewrite H, candidate_rows_app.
  rewrite skipn_app.
  replace (2 - length (candidate_rows cfg l1 false))%nat with O by lia.
  reflexivity.
Qed.

Lemma get_readme_table_global_counter_witness :
  get_readme_table (Fixture.example_config None (Some "README.md") 1 2)
    (Fixture.two_regions_head ++ Fixture.two_regions_tail)
  = Ok [ {| tags := ["1.*"; " 2.*"]; date := "January 01, 2020" |};
         {| tags := ["Tag"]; date := "Date" |};
         {| tags := ["-----"]; date := "------" |};
         {| tags := ["3.*"]; date := "January 01, 2021" |} ].
Proof.
  rewrite (proj2 (get_readme_table_global_counter
                    (Fixture.example_config None (Some "README.md") 1 2)
                    (Fixture.two_regions_head ++ Fixture.two_regions_tail))
             Fixture.two_regions_head Fixture.two_regions_tail eq_refl).
  - reflexivity.
  - vm_compute. lia.
Defined.

Lemma py_getitem_in_range {A} (l : list A) (i : Z) :
  0 <= i < Z.of_nat (length l) -> exists x, py_getitem l i = Ok x.
Proof.
  intro Hi. unfold py_getitem.
  destruct (Z.ltb_spec i 0); [lia|].
  destruct (Z.ltb_spec i 0); [lia|].
  destruct (Z.leb_spec (Z.of_nat (length l)) i); [lia|]. simpl.
  destruct (nth_error l (Z.to_nat i)) eqn:E; [eauto|].
  apply nth_error_None in E. lia.
Qed.

(** C7, as the code has it.  For 1-based column indices, [parse_md_line]
    raises [IndexError] exactly when the tag column or the date column
    exceeds the number of fields that follow the first pipe of the stripped
    row (the empty field after a closing pipe counts); otherwise it returns
    a record. *)
Theorem parse_md_line_column_range (cfg : config) (md_line : string) :
  1 <= tag_column (markdown cfg) ->
  1 <= date_column (markdown cfg) ->
  let n := Z.of_nat (length (row_fields md_line)) - 1 in
  ((exists msg, parse_md_line cfg md_line = Raise (IndexError msg))
   <-> (tag_column (markdown cfg) > n \/ date_column (markdown cfg) > n))
  /\ (tag_column (markdown cfg) <= n -> date_column (markdown cfg) <= n ->
      exists it, parse_md_line cfg md_line = Ok it).
Proof.
  intros Ht Hd n. unfold parse_md_line. fold (row_fields md_line).
  fold n.
  destruct (Z.gtb_spec (tag_column (markdown cfg)) n) as [Hgt|Hle].
  { split; [split; [intros _; lia | intros _; eauto] | intros; lia]. }
  destruct (Z.gtb_spec (date_column (markdown cfg)) n) as [Hgd|Hld].
  { split; [split; [intros _; lia | intros _; eauto] | intros; lia]. }
  destruct (py_getitem_in_range (row_fields md_line) (tag_column (markdown cfg)))
    as [t Et]; [lia|].
  destruct (py_getitem_in_range (row_fields md_line) (date_column (markdown cfg)))
    as [d Ed]; [lia|].
  rewrite Et, Ed. simpl.
  split; [split|].
  - intros [msg H]. discriminate.
  - lia.
  - intros _ _. eauto.
Qed.

Lemma parse_md_line_column_range_witness :
  exists it,
    parse_md_line (Fixture.example_config None None 1 2)
      "| `1.*` | January 01, 2020 |" = Ok it.
Proof.
  refine (proj2 (parse_md_line_column_range
                   (Fixture.example_config None None 1 2)
                   "| `1.*` | January 01, 2020 |" _ _) _ _);
    vm_compute; congruence.
Defined.

(** C7, as the claim words it, fails: the row [| a | b |] has two cells,
    the tag column 3 exceeds them, and the row is parsed all the same. *)
Lemma parse_md_line_column_past_cells :
  let cfg := Fixture.example_config None None 3 2 in
  let row := "| a | b |" in
  table_cells row = [" a "; " b "]
  /\ tag_column (markdown cfg) > Z.of_nat (length (table_cells row))
  /\ parse_md_line cfg row = Ok {| tags := [""]; date := "b" |}.
Proof. vm_compute. repeat split. Qed.

(** ** The monad of a run *)

Section Monad_facts.

Variable sys : system.

Lemma bind_ok {A B} (m : M sys A) (k : A -> M sys B) st a st1 :
  m st = (Ok a, st1) -> bind sys m k st = k a st1.
Proof. intro H. unfold bind. rewrite H. reflexivity. Qed.

Lemma bind_raise {A B} (m : M sys A) (k : A -> M sys B) st e st1 :
  m st = (Raise e, st1) -> bind sys m k st = (Raise e, st1).
Proof. intro H. unfold bind. rewrite H. reflexivity. Qed.

Lemma bind_out_of_fuel {A B} (m : M sys A) (k : A -> M sys B) st st1 :
  m st = (OutOfFuel, st1) -> bind sys m k st = (OutOfFuel, st1).
Proof. intro H. unfold bind. rewrite H. reflexivity. Qed.


Lemma http_run (rq : request) st :
  http sys rq st
  = (fst (send sys rq (world sys st)),
     {| world := snd (send sys rq (world sys st));
        log := log sys st ++ [rq]; stdout := stdout sys st |}).
Proof. unfold http. destruct (send sys rq (world sys st)); reflexivity. Qed.

Variable p : request -> bool.

Lemma quiet_ret {A} (a : A) : quiet sys p (ret sys a).
Proof. intros st r st' H. inversion H; subst. auto. Qed.

Lemma quiet_raise {A} (e : exn) : quiet sys p (@raise sys A e).
Proof. intros st r st' H. inversion H; subst. auto. Qed.

Lemma quiet_out_of_fuel {A} : quiet sys p (@out_of_fuel sys A).
Proof. intros st r st' H. inversion H; subst. auto. Qed.

Lemma quiet_lift {A} (x : result A) : quiet sys p (lift sys x).
Proof. intros st r st' H. inversion H; subst. auto. Qed.

Lemma quiet_bind {A B} (m : M sys A) (k : A -> M sys B) :
  quiet sys p m -> (forall a, quiet sys p (k a)) -> quiet sys p (bind sys m k).
Proof.
  intros Hm Hk st r st' H. unfold bind in H.
  destruct (m st) as [[a|e|] st1] eqn:E; destruct (Hm _ _ _ E) as [H1 H2].
  - destruct (Hk a _ _ _ H) as [H3 H4]. split; congruence.
  - inversion H; subst. auto.
  - inversion H; subst. auto.
Qed.

Lemma quiet_http (rq : request) : p rq = false -> quiet sys p (http sys rq).
Proof.
  intros Hp st r st' H. rewrite http_run in H. inversion H; subst; simpl.
  rewrite filter_app. simpl. rewrite Hp, app_nil_r. auto.
Qed.

End Monad_facts.

(** ** Which requests the parts of the script send *)

Section Request_facts.

Variable sys : system.
Variable cfg : config.
Variable now : datetime.
Variable p : request -> bool.

Hypothesis p_login : p (login_request cfg) = false.
Hypothesis p_next : forall u token, p (next_request u token) = false.

Lemma quiet_raise_for_status (resp : response) :
  quiet sys p (raise_for_status sys resp).
Proof.
  unfold raise_for_status.
  destruct (is_http_error resp); [apply quiet_raise | apply quiet_ret].
Qed.

Lemma quiet_resp_json (resp : response) : quiet sys p (resp_json sys resp).
Proof.
  unfold resp_json.
  destruct (json_body resp); [apply quiet_ret | apply quiet_raise].
Qed.

Lemma quiet_docker_hub_token : quiet sys p (docker_hub_token sys cfg).
Proof.
  unfold docker_hub_token.
  apply quiet_bind; [apply quiet_http, p_login | intro auth].
  apply quiet_bind; [apply quiet_raise_for_status | intros _].
  apply quiet_bind; [apply quiet_resp_json | intro content].
  apply quiet_lift.
Qed.

Lemma quiet_get_next (_next token : json) :
  quiet sys p (get_next sys _next token).
Proof.
  destruct _next; simpl; try apply quiet_raise.
  apply quiet_http, p_next.
Qed.

Lemma quiet_pagination (fuel : nat) :
  forall token pattern _next resp matching_tags,
    quiet sys p (pagination sys fuel token pattern _next resp matching_tags).
Proof.
  induction fuel as [|fuel IH]; intros token pattern _next resp matching_tags.
  - apply quiet_out_of_fuel.
  - cbn [pagination]. apply quiet_bind.
    + destruct (py_truthy _next); [|apply quiet_ret].
      apply quiet_bind; [apply quiet_get_next | intro resp'].
      destruct (is_http_error resp'); [|apply quiet_ret].
      destruct (status_code resp' =? 404); [apply quiet_ret | apply quiet_raise].
    + intros [resp1|]; [|apply quiet_ret].
      apply quiet_bind; [apply quiet_resp_json | intro body].
      apply quiet_bind; [apply quiet_lift | intro results].
      apply quiet_bind; [apply quiet_lift | intro matching1].
      apply quiet_bind; [apply quiet_lift | intro next1].
      destruct (py_truthy next1); [apply IH | apply quiet_ret].
Qed.

Section List_quiet.

Hypothesis p_list : forall token, p (list_request cfg token) = false.

Lemma quiet_tags_matching_pattern (fuel : nat) (pattern : string) :
  quiet sys p (tags_matching_pattern sys cfg fuel pattern).
Proof.
  unfold tags_matching_pattern.
  apply quiet_bind; [apply quiet_docker_hub_token | intro token].
  apply quiet_bind; [apply quiet_http, p_list | intro resp].
  apply quiet_pagination.
Qed.

Lemma quiet_match_patterns (fuel : nat) (patterns : list string) :
  forall tags_list, quiet sys p (match_patterns sys cfg fuel patterns tags_list).
Proof.
  induction patterns as [|pattern rest IH]; intro tags_list; simpl.
  - apply quiet_ret.
  - apply quiet_bind; [apply quiet_tags_matching_pattern | intro t; apply IH].
Qed.

Lemma quiet_scan_items (fuel : nat) (items : list item) :
  forall tags_list, quiet sys p (scan_items sys cfg now fuel items tags_list).
Proof.
  induction items as [|it rest IH]; intro tags_list; simpl.
  - apply quiet_ret.
  - apply quiet_bind; [apply quiet_lift | intro d].
    apply quiet_bind; [apply quiet_lift | intro due].
    destruct due; [|apply IH].
    apply quiet_bind; [apply quiet_match_patterns | intro l; apply IH].
Qed.

Lemma quiet_tags_to_delete (fuel : nat) :
  quiet sys p (tags_to_delete sys cfg now fuel).
Proof.
  unfold tags_to_delete.
  apply quiet_bind; [apply quiet_lift | intro items].
  apply quiet_bind; [apply quiet_scan_items | intro tags_list].
  destruct (0 <? _); [apply quiet_lift | apply quiet_ret].
Qed.

End List_quiet.

End Request_facts.

(** ** Listing the tags *)

Section Listing_facts.

Variable sys : system.
Variable cfg : config.

Lemma collect_names (pattern : string) (rs : list json) :
  forall (names acc : list string),
    map (fun r => py_getkey r "name") rs = map (fun n => Ok (JStr n)) names ->
    collect rs pattern acc = Ok (acc ++ matching pattern names).
Proof.
  induction rs as [|r rs IH]; intros [|n names] acc H; try discriminate.
  - simpl. rewrite app_nil_r. reflexivity.
  - simpl in H. injection H as Hr Hrs. cbn [collect]. rewrite Hr.
    cbn [rbind matching filter]. fold (matching pattern names).
    destruct (Fnmatch.fnmatch n pattern).
    + rewrite (IH names (acc ++ [n]) Hrs), <- app_assoc. reflexivity.
    + apply IH, Hrs.
Qed.

Lemma pagination_pages (token : json) (pattern : string) w resp pages e wend :
  pages_from sys token w resp pages e wend ->
  forall fuel acc st,
    world sys st = w ->
    (length pages < fuel)%nat ->
    exists st',
      pagination sys fuel token pattern JNull resp acc st
      = (Ok (outcome e (acc ++ matching pattern (concat pages))), st')
      /\ world sys st' = wend.
Proof.
  induction 1 as [w resp j names next Hj [Hn [rs [Hr Hm]]] Hf
                 |w resp j names u resp' w' Hj [Hn [rs [Hr Hm]]] Hu Hs H404
                 |w resp j names u resp' w' rest e wend Hj [Hn [rs [Hr Hm]]]
                    Hu Hs Hok Hrest IH];
    intros fuel acc st Hw Hlen.
  - destruct fuel as [|fuel]; [simpl in Hlen; lia|].
    cbn [pagination py_truthy]. unfold bind at 1. cbn [ret].
    unfold resp_json. rewrite Hj. unfold bind, ret, lift.
    rewrite Hr. cbn [rbind py_iter].
    rewrite (collect_names pattern rs names acc Hm), Hn, Hf.
    simpl. rewrite app_nil_r. exists st. split; [reflexivity | exact Hw].
  - destruct fuel as [|[|fuel]]; [simpl in Hlen; lia | simpl in Hlen; lia|].
    cbn [pagination py_truthy]. unfold bind at 1. cbn [ret].
    unfold resp_json. rewrite Hj. unfold bind at 1. cbn [ret].
    unfold bind at 1. unfold lift at 1. rewrite Hr. cbn [rbind py_iter].
    unfold bind at 1. unfold lift at 1.
    rewrite (collect_names pattern rs names acc Hm).
    unfold bind at 1. unfold lift at 1. rewrite Hn.
    cbn [py_truthy]. rewrite Hu.
    unfold bind at 1. unfold bind at 1. cbn [get_next].
    rewrite http_run, Hw, Hs. cbn [fst snd].
    unfold is_http_error. rewrite H404. simpl.
    eexists. split; [reflexivity | reflexivity].
  - destruct fuel as [|[|fuel]];
      [simpl in Hlen; lia | simpl in Hlen; destruct rest; [|simpl in Hlen; lia];
                            inversion Hrest |].
    destruct (IH (S fuel) (acc ++ matching pattern names)
                {| world := w'; log := log sys st ++ [next_request u token];
                   stdout := stdout sys st |} eq_refl) as [st' [Hrun Hend]];
      [simpl in Hlen; lia|].
    exists st'. split; [|exact Hend].
    cbn [concat]. unfold matching at 1. rewrite filter_app.
    fold (matching pattern names). fold (matching pattern (concat rest)).
    rewrite app_assoc, <- Hrun. clear Hrun IH.
    cbn [pagination py_truthy]. unfold bind at 1. cbn [ret].
    unfold resp_json at 1. rewrite Hj. unfold bind at 1. cbn [ret].
    unfold bind at 1. unfold lift at 1. rewrite Hr. cbn [rbind py_iter].
    unfold bind at 1. unfold lift at 1.
    rewrite (collect_names pattern rs names acc Hm).
    unfold bind at 1. unfold lift at 1. rewrite Hn.
    cbn [py_truthy]. rewrite Hu.
    unfold bind at 1. unfold bind at 1. cbn [get_next].
    rewrite http_run, Hw, Hs. cbn [fst snd]. rewrite Hok.
    unfold bind at 4. cbn [ret]. reflexivity.
Qed.

Lemma tags_matching_pattern_listing (pattern : string) w pages e wend :
  listing sys cfg w pages e wend ->
  forall fuel st,
    world sys st = w ->
    (length pages < fuel)%nat ->
    exists st',
      tags_matching_pattern sys cfg fuel pattern st
      = (Ok (outcome e (matching pattern (concat pages))), st')
      /\ world sys st' = wend.
Proof.
  intros [w0 auth w1 content token resp w2 pgs e0 wend0 Hs Hok Hc Ht Hl Hp]
         fuel st Hw Hlen.
  destruct (pagination_pages token pattern _ _ _ _ _ Hp fuel []
              {| world := w2;
                 log := (log sys st ++ [login_request cfg])
                          ++ [list_request cfg token];
                 stdout := stdout sys st |} eq_refl Hlen) as [st' [Hrun Hend]].
  exists st'. split; [|exact Hend]. cbn [app] in Hrun. rewrite <- Hrun.
  unfold tags_matching_pattern, docker_hub_token.
  unfold bind at 1. unfold bind at 1. rewrite http_run, Hw, Hs. cbn [fst snd].
  unfold bind at 1. unfold raise_for_status. rewrite Hok. cbn [ret].
  unfold bind at 1. unfold resp_json. rewrite Hc. cbn [ret].
  unfold lift. rewrite Ht.
  unfold bind at 1. rewrite http_run. cbn [world log stdout]. rewrite Hl.
  reflexivity.
Qed.

Lemma flatten_some (rows : list (list string)) :
  flatten (map Some rows) = Ok (concat rows).
Proof.
  induction rows as [|row rows IH]; simpl; [reflexivity|].
  rewrite IH. reflexivity.
Qed.

Lemma flatten_none (rows : list (option (list string))) :
  In None rows -> flatten rows = Raise TypeError.
Proof.
  induction rows as [|[row|] rows IH]; simpl; intro H.
  - contradiction.
  - destruct H as [H|H]; [discriminate|]. rewrite (IH H). reflexivity.
  - reflexivity.
Qed.

End Listing_facts.

(** Proves that a concrete body is a page. *)
Ltac a_page := split; [reflexivity | eexists; split; reflexivity].

(** C1.  When the server answers some pages with [next] links and then a
    404 to the request for the next page, [tags_matching_pattern] does not
    return the names that matched on the pages it fetched: the [break]
    leaves the loop, the function ends without a [return] and its value is
    [None]; [tags_to_delete] then fails with [TypeError] when it flattens
    its rows. *)
Theorem tags_matching_pattern_404_returns_None
        (sys : system) (cfg : config) (pattern : string)
        (w : World sys) (pages : list (list string)) (wend : World sys)
        (fuel : nat) (st : state sys) :
  listing sys cfg w pages NotFound wend ->
  world sys st = w ->
  (length pages < fuel)%nat ->
  (exists st',
      tags_matching_pattern sys cfg fuel pattern st = (Ok None, st')
      /\ world sys st' = wend)
  /\ forall rows1 rows2, flatten (rows1 ++ None :: rows2) = Raise TypeError.
Proof.
  intros Hl Hw Hlen. split.
  - exact (tags_matching_pattern_listing sys cfg pattern w pages NotFound wend
             Hl fuel st Hw Hlen).
  - intros rows1 rows2. apply flatten_none, in_elt.
Qed.

Lemma tags_matching_pattern_404_returns_None_witness :
  exists st',
    tags_matching_pattern (Fixture.tape_system [] []) Fixture.json_config 10
      "1.*" (Fixture.start (sys := Fixture.tape_system [] [])
               Script.three_pages_then_404)
    = (Ok None, st')
    /\ world _ st' = [].
Proof.
  refine (proj1 (tags_matching_pattern_404_returns_None
                   (Fixture.tape_system [] []) Fixture.json_config "1.*"
                   Script.three_pages_then_404
                   [["1.0"; "1.1"]; ["1.2"; "2.0"]; ["2.1"]] [] 10
                   (Fixture.start (sys := Fixture.tape_system [] [])
                      Script.three_pages_then_404) _ eq_refl _)).
  - eapply listing_intro; try reflexivity.
    eapply pages_more; [reflexivity | a_page | reflexivity..|].
    eapply pages_more; [reflexivity | a_page | reflexivity..|].
    eapply pages_404; [reflexivity | a_page | reflexivity..].
  - simpl. lia.
Defined.

(** The same run, from the main program: the script ends with [TypeError]
    and exit status 1, and nothing is deleted. *)
Example main_three_pages_then_404 :
  let sys := Fixture.tape_system [Script.old_record ["1.*"]] [] in
  let run := main sys Fixture.json_config Fixture.a_now 10
               (Fixture.start (sys := sys) Script.three_pages_then_404) in
  fst run = Raise TypeError
  /\ exit_status (fst run) = Some 1
  /\ filter is_delete (log sys (snd run)) = [].
Proof. vm_compute. repeat split. Qed.

Lemma pagination_next_given (sys : system) (fuel : nat) (token : json)
      (pattern : string) (_next : json) (r1 r2 : response)
      (acc : list string) (st : state sys) :
  py_truthy _next = true ->
  pagination sys fuel token pattern _next r1 acc st
  = pagination sys fuel token pattern _next r2 acc st.
Proof.
  intro H. destruct fuel as [|fuel]; [reflexivity|].
  cbn [pagination]. rewrite H. reflexivity.
Qed.

(** C2.  The status of the answer to the request for the first page is
    never looked at: [tags_matching_pattern] decodes the body whatever the
    status is.  An answer 500 whose body is a page is listed like an
    answer 200; an answer 401 with the body of an error raises [KeyError],
    not [HTTPError]. *)
Theorem first_page_status_not_checked :
  (forall (sys : system) (fuel : nat) (token : json) (pattern : string)
          (resp : response) (code : Z) (acc : list string) (st : state sys),
      pagination sys fuel token pattern JNull
        {| status_code := code; json_body := json_body resp |} acc st
      = pagination sys fuel token pattern JNull resp acc st)
  /\ fst (tags_matching_pattern (Fixture.tape_system [] []) Fixture.json_config
            10 "1.*" (Fixture.start (sys := Fixture.tape_system [] [])
                        Script.first_page_500))
     = Ok (Some ["1.0"])
  /\ fst (tags_matching_pattern (Fixture.tape_system [] []) Fixture.json_config
            10 "1.*" (Fixture.start (sys := Fixture.tape_system [] [])
                        Script.first_page_401))
     = Raise (KeyError "results").
Proof.
  split; [|split; reflexivity].
  intros sys fuel token pattern resp code acc st.
  destruct fuel as [|fuel]; [reflexivity|].
  destruct resp as [code0 [j|]];
    cbn [pagination py_truthy];
    cbv beta iota delta [bind ret resp_json lift raise json_body];
    [|reflexivity].
  destruct (rbind (py_getkey j "results") py_iter) as [results| |];
    try reflexivity.
  destruct (collect results pattern acc) as [matching1| |]; try reflexivity.
  destruct (py_getkey j "next") as [next1| |]; try reflexivity.
  destruct (py_truthy next1) eqn:Hn; [|reflexivity].
  apply pagination_next_given, Hn.
Qed.

(** ** The matcher *)

(** C6, as the code has it.  When every listing answers the tags [live],
    the patterns of a record are matched in their order: each pattern is
    stripped of the white space around it, the tags of [live] that match it
    are kept in the order of [live], and the rows are concatenated as they
    are, without removing duplicates. *)
Theorem match_patterns_strips_and_filters
        (sys : system) (cfg : config) (fuel : nat) (live : list string)
        (Inv : World sys -> Prop) :
  (forall w, Inv w ->
     exists pages wend,
       listing sys cfg w pages EndOfList wend
       /\ concat pages = live /\ (length pages < fuel)%nat /\ Inv wend) ->
  forall (patterns : list string) (tags_list : list (option (list string)))
         (st : state sys),
    Inv (world sys st) ->
    exists st',
      match_patterns sys cfg fuel patterns tags_list st
      = (Ok (tags_list
               ++ map (fun p => Some (matching (PyStr.strip p) live)) patterns),
         st')
      /\ Inv (world sys st')
      /\ flatten (map (fun p => Some (matching (PyStr.strip p) live)) patterns)
         = Ok (flat_map (fun p => matching (PyStr.strip p) live) patterns).
Proof.
  intros Hserve patterns.
  induction patterns as [|pattern rest IH]; intros tags_list st Hinv.
  - exists st. simpl. rewrite app_nil_r. auto.
  - destruct (Hserve _ Hinv) as [pages [wend [Hl [Hc [Hlen Hend]]]]].
    destruct (tags_matching_pattern_listing sys cfg (PyStr.strip pattern)
                _ _ _ _ Hl fuel st eq_refl Hlen) as [st1 [Hrun Hw]].
    rewrite Hc in Hrun. cbn [outcome] in Hrun.
    rewrite <- Hw in Hend.
    destruct (IH (tags_list ++ [Some (matching (PyStr.strip pattern) live)])
                st1 Hend) as [st' [Hrest [Hinv' Hflat]]].
    exists st'. cbn [match_patterns map].
    rewrite (bind_ok _ _ _ _ _ _ Hrun), Hrest, <- app_assoc.
    split; [reflexivity|]. split; [exact Hinv'|].
    cbn [flatten flat_map]. rewrite Hflat. reflexivity.
Qed.

Lemma match_patterns_strips_and_filters_witness :
  exists st',
    match_patterns (Repo.sys []) Fixture.json_config 5 ["1.*"] []
      (Fixture.start (sys := Repo.sys []) Repo.live)
    = (Ok [Some ["1.0"; "1.2.3"]], st').
Proof.
  destruct (match_patterns_strips_and_filters
              (Repo.sys []) Fixture.json_config 5 Repo.live
              (fun w => w = Repo.live)) with
      (patterns := ["1.*"]) (tags_list := @nil (option (list string)))
      (st := Fixture.start (sys := Repo.sys []) Repo.live)
    as [st' [H _]].
  - intros w ->. exists [["1.0"; "1.2.3"]; ["2.0"]], Repo.live.
    split; [|split; [reflexivity | split; [simpl; lia | reflexivity]]].
    eapply listing_intro; try reflexivity.
    eapply pages_more; [reflexivity | a_page | reflexivity..|].
    eapply pages_last; [reflexivity | a_page | reflexivity].
  - reflexivity.
  - exists st'. exact H.
Defined.

(** C6, as the claim words it, fails: the pattern [" 2.*"], which the
    Markdown reader produces for the second pattern of a row, matches no
    tag under the wildcard rules, but the script strips it and deletes
    [2.0]. *)
Lemma matcher_strips_patterns :
  flat_map (fun p => matching p Repo.live) (tags Repo.row_record)
  = ["1.0"; "1.2.3"]
  /\ fst (tags_to_delete (Repo.sys [Repo.row_record]) Fixture.json_config
            Fixture.a_now 5
            (Fixture.start (sys := Repo.sys [Repo.row_record]) Repo.live))
     = Ok ["1.0"; "1.2.3"; "2.0"].
Proof. vm_compute. split; reflexivity. Qed.

(** ** How often the tag list is fetched *)

Section Fetch_count.

Variable sys : system.
Variable cfg : config.
Variable now : datetime.




End Fetch_count.

Section Fetch_log.

Variable sys : system.
Variable cfg : config.
Variable now : datetime.










End Fetch_log.




(** ** Dates *)

Lemma lex_compare_refl (a : list Z) : lex_compare a a = Eq.
Proof.
  induction a as [|x a IH]; simpl; [reflexivity|].
  rewrite Z.compare_refl. exact IH.
Qed.

Lemma lex_compare_eq (a : list Z) :
  forall b, lex_compare a b = Eq -> a = b.
Proof.
  induction a as [|x a IH]; intros [|y b] H; simpl in H;
    try discriminate; [reflexivity|].
  destruct (x ?= y) eqn:E; try discriminate.
  apply Z.compare_eq in E. rewrite (IH b H), E. reflexivity.
Qed.

Lemma lex_compare_antisym (a : list Z) :
  forall b, lex_compare b a = CompOpp (lex_compare a b).
Proof.
  induction a as [|x a IH]; intros [|y b]; simpl; try reflexivity.
  rewrite (Z.compare_antisym x y).
  destruct (x ?= y); simpl; auto.
Qed.

Lemma lex_compare_lt_trans (a : list Z) :
  forall b c, lex_compare a b = Lt -> lex_compare b c = Lt ->
              lex_compare a c = Lt.
Proof.
  induction a as [|x a IH]; intros [|y b] [|z c] H1 H2; simpl in *;
    try discriminate; try reflexivity.
  destruct (x ?= y) eqn:E1; try discriminate;
    destruct (y ?= z) eqn:E2; try discriminate.
  - apply Z.compare_eq in E1, E2. subst. rewrite Z.compare_refl.
    eapply IH; eassumption.
  - apply Z.compare_eq in E1. subst. rewrite E2. reflexivity.
  - apply Z.compare_eq in E2. subst. rewrite E1. reflexivity.
  - rewrite Z.compare_lt_iff in E1, E2.
    assert (E : x < z) by lia. rewrite <- Z.compare_lt_iff in E.
    rewrite E. reflexivity.
Qed.

(** The comparison of the fields is a total order on the dates of one
    kind. *)
Lemma datetime_compare_eq (a b : datetime) :
  utcoffset a = utcoffset b ->
  datetime_compare a b = Eq <-> a = b.
Proof.
  intro Ho. split.
  - intro H. apply lex_compare_eq in H. destruct a, b.
    unfold datetime_fields in H. simpl in H, Ho. congruence.
  - intros ->. apply lex_compare_refl.
Qed.

Lemma datetime_compare_antisym (a b : datetime) :
  datetime_compare b a = CompOpp (datetime_compare a b).
Proof. apply lex_compare_antisym. Qed.

Lemma datetime_compare_lt_trans (a b c : datetime) :
  datetime_compare a b = Lt -> datetime_compare b c = Lt ->
  datetime_compare a c = Lt.
Proof. apply lex_compare_lt_trans. Qed.

(** *** The calendar *)

Lemma days_before_year_le (y y' : Z) :
  y <= y' -> days_before_year y <= days_before_year y'.
Proof. intro H. unfold days_before_year. Z.div_mod_to_equations. lia. Qed.

Lemma days_before_next_year (y : Z) :
  days_before_year (y + 1)
  = days_before_year y + (if is_leap y then 366 else 365).
Proof.
  unfold days_before_year, is_leap.
  replace (y + 1 - 1) with y by lia.
  destruct (Z.eqb_spec (y mod 4) 0); destruct (Z.eqb_spec (y mod 100) 0);
    destruct (Z.eqb_spec (y mod 400) 0); cbn [andb orb negb];
    Z.div_mod_to_equations; lia.
Qed.

Ltac each_month m :=
  let H := fresh "Hm" in
  assert (H : m = 1 \/ m = 2 \/ m = 3 \/ m = 4 \/ m = 5 \/ m = 6 \/ m = 7
              \/ m = 8 \/ m = 9 \/ m = 10 \/ m = 11 \/ m = 12) by lia;
  repeat (destruct H as [H|H]; [subst m|]); [..|subst m].

Ltac calendar y :=
  unfold days_in_month, days_before_month in *;
  cbn [Z.eqb Pos.eqb Z.ltb Z.compare Pos.compare Pos.compare_cont orb andb]
    in *;
  destruct (is_leap y); lia.

(** The day of the year lies in the year. *)
Lemma day_of_year_bounds (y m d : Z) :
  1 <= m <= 12 -> 1 <= d <= days_in_month y m ->
  1 <= days_before_month y m + d <= (if is_leap y then 366 else 365).
Proof.
  intros Hm Hd. each_month m; calendar y.
Qed.

(** Within a year a later month is a later day. *)
Lemma day_of_year_month_lt (y m d m' d' : Z) :
  1 <= m <= 12 -> 1 <= m' <= 12 -> m < m' ->
  d <= days_in_month y m -> 1 <= d' ->
  days_before_month y m + d < days_before_month y m' + d'.
Proof.
  intros Hm Hm' Hlt Hd Hd'. each_month m; each_month m'; try lia; calendar y.
Qed.

Lemma toordinal_year_lt (y m d y' m' d' : Z) :
  1 <= m <= 12 -> 1 <= d <= days_in_month y m ->
  1 <= m' <= 12 -> 1 <= d' <= days_in_month y' m' ->
  y < y' ->
  days_before_year y + days_before_month y m + d
  < days_before_year y' + days_before_month y' m' + d'.
Proof.
  intros Hm Hd Hm' Hd' Hy.
  pose proof (day_of_year_bounds y m d Hm Hd) as H1.
  pose proof (day_of_year_bounds y' m' d' Hm' Hd') as H2.
  pose proof (days_before_next_year y) as H3.
  pose proof (days_before_year_le (y + 1) y' ltac:(lia)) as H4.
  lia.
Qed.

(** For dates that exist, the comparison of the fields is the comparison
    of the instants they name. *)
Lemma datetime_compare_instants (a b : datetime) :
  valid_date a -> valid_date b ->
  datetime_compare a b = (wall_microseconds a ?= wall_microseconds b).
Proof.
  destruct a as [y m d h mi s us o], b as [y' m' d' h' mi' s' us' o'].
  unfold valid_date, datetime_compare, datetime_fields, wall_microseconds,
    toordinal.
  cbn [year month day hour minute second microsecond lex_compare].
  intros (Hm & Hd & Hh & Hmi & Hs & Hus) (Hm' & Hd' & Hh' & Hmi' & Hs' & Hus').
  assert (Hlt : forall p q : Z, p < q -> Lt = (p ?= q))
    by (intros p q H; symmetry; apply Z.compare_lt_iff; exact H).
  assert (Hgt : forall p q : Z, q < p -> Gt = (p ?= q))
    by (intros p q H; symmetry; apply Z.compare_gt_iff; exact H).
  destruct (Z.compare_spec y y') as [->|Hy|Hy].
  - destruct (Z.compare_spec m m') as [->|Hc|Hc].
    + destruct (Z.compare_spec d d') as [->|Hc|Hc];
        [|apply Hlt; lia | apply Hgt; lia].
      destruct (Z.compare_spec h h') as [->|Hc|Hc];
        [|apply Hlt; lia | apply Hgt; lia].
      destruct (Z.compare_spec mi mi') as [->|Hc|Hc];
        [|apply Hlt; lia | apply Hgt; lia].
      destruct (Z.compare_spec s s') as [->|Hc|Hc];
        [|apply Hlt; lia | apply Hgt; lia].
      destruct (Z.compare_spec us us') as [->|Hc|Hc];
        [|apply Hlt; lia | apply Hgt; lia].
      symmetry. apply Z.compare_refl.
    + pose proof (day_of_year_month_lt y' m d m' d' Hm Hm' Hc
                    ltac:(lia) ltac:(lia)).
      apply Hlt. lia.
    + pose proof (day_of_year_month_lt y' m' d' m d Hm' Hm Hc
                    ltac:(lia) ltac:(lia)).
      apply Hgt. lia.
  - pose proof (toordinal_year_lt y m d y' m' d' Hm Hd Hm' Hd' Hy).
    apply Hlt. lia.
  - pose proof (toordinal_year_lt y' m' d' y m d Hm' Hd' Hm Hd Hy).
    apply Hgt. lia.
Qed.

(** Two naive dates that exist: [a >= b] says that the instant of [a] is
    not before the instant of [b]. *)
Lemma py_ge_naive (a b : datetime) :
  utcoffset a = None -> utcoffset b = None ->
  valid_date a -> valid_date b ->
  py_ge a b = Ok (wall_microseconds b <=? wall_microseconds a).
Proof.
  intros Ha Hb Va Vb. unfold py_ge, py_compare. rewrite Ha, Hb.
  cbn [rbind]. rewrite (datetime_compare_instants a b Va Vb).
  destruct (Z.compare_spec (wall_microseconds a) (wall_microseconds b));
    destruct (Z.leb_spec (wall_microseconds b) (wall_microseconds a));
    try reflexivity; lia.
Qed.

(** A naive date and an aware date cannot be ordered. *)
Lemma py_ge_mixed (a b : datetime) :
  utcoffset a = None -> utcoffset b <> None -> py_ge a b = Raise TypeError.
Proof.
  intros Ha Hb. unfold py_ge, py_compare. rewrite Ha.
  destruct (utcoffset b); [reflexivity | congruence].
Qed.

(** C5, as the code has it.  [now] is a naive date.  A record whose date
    parses to a naive date [D] is due exactly when the instant of now is
    not before the instant of [D]: then the patterns of the record are
    matched against the registry (also when now = [D]); when now is before
    [D] the record is passed over and nothing is asked for it.  A date that
    parses to an aware date (a format with [%z]) cannot be compared with
    now: the pass stops with [TypeError]. *)
Theorem record_due_iff_now_ge_date
        (sys : system) (cfg : config) (now : datetime) (fuel : nat)
        (it : item) (D : datetime) (rest : list item)
        (tags_list : list (option (list string))) (st : state sys) :
  parse_date sys cfg (date it) = Ok D ->
  utcoffset now = None ->
  valid_date now ->
  valid_date D ->
  (utcoffset D = None ->
     (wall_microseconds D <= wall_microseconds now ->
        scan_items sys cfg now fuel (it :: rest) tags_list st
        = bind sys (match_patterns sys cfg fuel (tags it) tags_list)
            (fun l => scan_items sys cfg now fuel rest l) st)
     /\ (wall_microseconds now < wall_microseconds D ->
           scan_items sys cfg now fuel (it :: rest) tags_list st
           = scan_items sys cfg now fuel rest tags_list st))
  /\ (utcoffset D <> None ->
        scan_items sys cfg now fuel (it :: rest) tags_list st
        = (Raise TypeError, st)).
Proof.
  intros Hd Hn Vn Vd. split.
  - intro Ho. pose proof (py_ge_naive now D Hn Ho Vn Vd) as Hge. split.
    + intro H. cbn [scan_items]. unfold bind at 1, lift. rewrite Hd.
      unfold bind at 1. rewrite Hge.
      destruct (Z.leb_spec (wall_microseconds D) (wall_microseconds now));
        [reflexivity | lia].
    + intro H. cbn [scan_items]. unfold bind at 1, lift. rewrite Hd.
      unfold bind at 1. rewrite Hge.
      destruct (Z.leb_spec (wall_microseconds D) (wall_microseconds now));
        [lia | reflexivity].
  - intro Ho. cbn [scan_items]. unfold bind at 1, lift. rewrite Hd.
    unfold bind at 1. rewrite (py_ge_mixed now D Hn Ho). reflexivity.
Qed.

Lemma record_due_iff_now_ge_date_witness :
  let sys := Repo.sys [] in
  fst (scan_items sys Fixture.json_config Fixture.a_now 5
         [Script.old_record ["1.*"]] []
         (Fixture.start (sys := sys) Repo.live))
  = Ok [Some ["1.0"; "1.2.3"]].
Proof.
  intro sys.
  rewrite (proj1 (proj1 (record_due_iff_now_ge_date sys Fixture.json_config
                           Fixture.a_now 5 (Script.old_record ["1.*"])
                           {| year := 2020; month := 1; day := 1; hour := 0;
                              minute := 0; second := 0; microsecond := 0;
                              utcoffset := None |}
                           [] [] (Fixture.start (sys := sys) Repo.live)
                           eq_refl eq_refl
                           ltac:(vm_compute; repeat split; congruence)
                           ltac:(vm_compute; repeat split; congruence))
                    eq_refl)).
  - reflexivity.
  - vm_compute. congruence.
Defined.

(** C5, as the claim words it, fails: with the format ['%B %d, %Y %z'] the
    date of the record parses, to an instant that lies years before now,
    and yet the record is not treated as due: the comparison raises
    [TypeError] and the run ends with exit status 1 before any request. *)
Lemma aware_date_is_not_compared :
  let sys := Repo.sys [Fixture2.offset_record ["*"]] in
  let run := main sys Fixture2.offset_config Fixture.a_now 5
               (Fixture.start (sys := sys) Repo.live) in
  parse_date sys Fixture2.offset_config (date (Fixture2.offset_record ["*"]))
  = Ok {| year := 2020; month := 1; day := 1; hour := 0; minute := 0;
          second := 0; microsecond := 0; utcoffset := Some 0 |}
  /\ fst run = Raise TypeError
  /\ log sys (snd run) = []
  /\ exit_status (fst run) = Some 1.
Proof. vm_compute. repeat split. Qed.

(** ** Deleting *)

Section Delete_facts.

Variable sys : system.
Variable cfg : config.
Variable now : datetime.

Lemma state_eta (st : state sys) :
  {| world := world sys st; log := log sys st ++ []; stdout := stdout sys st |}
  = st.
Proof. destruct st. simpl. rewrite app_nil_r. reflexivity. Qed.

(** While the server answers no error, the loop deletes tag after tag, in
    the order of the list. *)
Lemma delete_loop_ok (token : json) w l wend :
  deletes_ok sys cfg token w l wend ->
  forall deleted st,
    world sys st = w ->
    delete_loop sys cfg token l deleted st
    = (Ok (deleted ++ l),
       {| world := wend;
          log := log sys st ++ map (delete_request cfg token) l;
          stdout := stdout sys st |}).
Proof.
  induction 1 as [w|w tag resp w' rest wend Hs Hok Hrest IH];
    intros deleted st Hw.
  - simpl. rewrite app_nil_r, <- Hw, state_eta. reflexivity.
  - cbn [delete_loop]. unfold bind at 1. rewrite http_run, Hw, Hs.
    cbn [fst snd]. unfold bind at 1, raise_for_status. rewrite Hok.
    cbn [ret]. rewrite IH by reflexivity. cbn [log stdout map].
    rewrite <- !app_assoc. reflexivity.
Qed.

(** The first delete that is answered an error ends the loop. *)
Lemma delete_loop_fail (token : json) w pre w1 tag resp w2 post :
  deletes_ok sys cfg token w pre w1 ->
  send sys (delete_request cfg token tag) w1 = (Ok resp, w2) ->
  is_http_error resp = true ->
  forall deleted st,
    world sys st = w ->
    delete_loop sys cfg token (pre ++ tag :: post) deleted st
    = (Raise (HTTPError (status_code resp)),
       {| world := w2;
          log := log sys st ++ map (delete_request cfg token) (pre ++ [tag]);
          stdout := stdout sys st |}).
Proof.
  intros Hpre Hs Herr.
  induction Hpre as [w|w t r w' rest wend Hs' Hok Hrest IH];
    intros deleted st Hw.
  - cbn [app delete_loop]. unfold bind at 1. rewrite http_run, Hw, Hs.
    cbn [fst snd]. unfold bind at 1, raise_for_status. rewrite Herr.
    reflexivity.
  - cbn [app delete_loop]. unfold bind at 1. rewrite http_run, Hw, Hs'.
    cbn [fst snd]. unfold bind at 1, raise_for_status. rewrite Hok.
    cbn [ret]. rewrite (IH Hs) by reflexivity. cbn [log stdout map].
    rewrite <- !app_assoc. reflexivity.
Qed.

Lemma print_deleted_run (l : list string) :
  forall st,
    print_deleted sys cfg l st
    = (Ok tt, {| world := world sys st; log := log sys st;
                 stdout := stdout sys st ++ map (deleted_line cfg) l |}).
Proof.
  induction l as [|t l IH]; intro st.
  - simpl. rewrite app_nil_r. destruct st; reflexivity.
  - cbn [print_deleted]. unfold bind, print at 1. rewrite IH.
    cbn [world log stdout map]. rewrite <- app_assoc. reflexivity.
Qed.

Lemma quiet_delete_loop (token : json) (l : list string) :
  forall deleted,
    quiet sys (fun _ => false) (delete_loop sys cfg token l deleted).
Proof.
  induction l as [|t l IH]; intro deleted; simpl.
  - apply quiet_ret.
  - apply quiet_bind; [apply quiet_http; reflexivity | intro resp].
    apply quiet_bind; [apply quiet_raise_for_status | intros _; apply IH].
Qed.

(** [delete_expired_tags] prints nothing. *)
Lemma delete_expired_tags_silent (fuel : nat) st r st' :
  delete_expired_tags sys cfg now fuel st = (r, st') ->
  stdout sys st' = stdout sys st.
Proof.
  intro H.
  assert (Q : quiet sys (fun _ => false) (delete_expired_tags sys cfg now fuel)).
  { unfold delete_expired_tags.
    apply quiet_bind; [apply quiet_docker_hub_token; reflexivity | intro token].
    apply quiet_bind; [apply quiet_tags_to_delete; reflexivity | intro l].
    apply quiet_delete_loop. }
  exact (proj2 (Q _ _ _ H)).
Qed.

Lemma nonempty_length {A} (l : list A) :
  l <> [] -> (0 <? Z.of_nat (length l)) = true.
Proof. destruct l; [congruence | intros _; reflexivity]. Qed.

End Delete_facts.

(** C3, as the code has it.  The deletes are sent in the order of the
    matched sequence; the first delete that is answered a 4xx or 5xx status
    ends the run: no delete is sent for a later name, nothing undoes the
    deletes that were answered before, and the run ends with [HTTPError]
    and exit status 1. *)
Theorem main_aborts_on_first_failed_delete
        (sys : system) (cfg : config) (now : datetime) (fuel : nat)
        (st st0 st1 st2 : state sys) (_tags pre post : list string)
        (tag : string) (token : json) (w1 w2 : World sys) (resp : response) :
  tags_to_delete sys cfg now fuel st = (Ok _tags, st0) ->
  _tags <> [] ->
  docker_hub_token sys cfg st0 = (Ok token, st1) ->
  tags_to_delete sys cfg now fuel st1 = (Ok (pre ++ tag :: post), st2) ->
  deletes_ok sys cfg token (world sys st2) pre w1 ->
  send sys (delete_request cfg token tag) w1 = (Ok resp, w2) ->
  is_http_error resp = true ->
  main sys cfg now fuel st
  = (Raise (HTTPError (status_code resp)),
     {| world := w2;
        log := log sys st2 ++ map (delete_request cfg token) (pre ++ [tag]);
        stdout := stdout sys st2 |})
  /\ exit_status (fst (main sys cfg now fuel st)) = Some 1.
Proof.
  intros H0 Hne Htok H2 Hpre Hs Herr.
  assert (Hmain : main sys cfg now fuel st
                  = (Raise (HTTPError (status_code resp)),
                     {| world := w2;
                        log := log sys st2
                                 ++ map (delete_request cfg token) (pre ++ [tag]);
                        stdout := stdout sys st2 |})).
  { unfold main. rewrite (bind_ok _ _ _ _ _ _ H0), (nonempty_length _ Hne).
    apply bind_raise. unfold delete_expired_tags.
    rewrite (bind_ok _ _ _ _ _ _ Htok), (bind_ok _ _ _ _ _ _ H2).
    exact (delete_loop_fail sys cfg token _ pre w1 tag resp w2 post
             Hpre Hs Herr [] st2 eq_refl). }
  split; [exact Hmain | rewrite Hmain; reflexivity].
Qed.

Lemma main_aborts_on_first_failed_delete_witness :
  let sys := Fixture.tape_system [Script.old_record ["*"]] [] in
  let run := main sys Fixture.json_config Fixture.a_now 5
               (Fixture.start (sys := sys) Script.second_delete_500) in
  fst run = Raise (HTTPError 500)
  /\ filter is_delete (log sys (snd run))
     = [delete_request Fixture.json_config (JStr "jwt") "a";
        delete_request Fixture.json_config (JStr "jwt") "b"]
  /\ world sys (snd run) = [Fixture.status_only 204].
Proof.
  intros sys run.
  destruct (main_aborts_on_first_failed_delete
              sys Fixture.json_config Fixture.a_now 5
              (Fixture.start (sys := sys) Script.second_delete_500)
              _ _ _ ["a"; "b"; "c"] ["a"] ["c"] "b" (JStr "jwt")
              [Fixture.error_body 500; Fixture.status_only 204]
              [Fixture.status_only 204]
              {| status_code := 500;
                 json_body := Some (JObj [("detail", JStr "error")]) |}
              eq_refl ltac:(discriminate) eq_refl eq_refl) as [H _].
  - eapply deletes_cons; [reflexivity | reflexivity | apply deletes_nil].
  - reflexivity.
  - reflexivity.
  - unfold run. rewrite H. repeat split.
Defined.

(** C3, as the claim words it, fails: a delete that is answered 304, which
    is no 2xx status, does not end the run; the next tag is deleted and
    the run ends well. *)
Lemma delete_answered_304_goes_on :
  let sys := Fixture.tape_system [Script.old_record ["*"]] [] in
  let run := main sys Fixture.json_config Fixture.a_now 5
               (Fixture.start (sys := sys) Script.first_delete_304) in
  nth_error Script.first_delete_304 5 = Some (Fixture.status_only 304)
  /\ fst run = Ok tt
  /\ filter is_delete (log sys (snd run))
     = [delete_request Fixture.json_config (JStr "jwt") "a";
        delete_request Fixture.json_config (JStr "jwt") "b"]
  /\ exit_status (fst run) = Some 0.
Proof. vm_compute. repeat split. Qed.

(** C4, as the code has it.  The confirmation lines are printed after
    [delete_expired_tags] has returned: then one line is printed for every
    name of the sequence that the main program matched, in order; when a
    delete fails, the run ends without any confirmation line. *)
Theorem main_confirms_after_all_deletes
        (sys : system) (cfg : config) (now : datetime) (fuel : nat)
        (st st0 st1 : state sys) (_tags : list string)
        (r : result (list string)) :
  tags_to_delete sys cfg now fuel st = (Ok _tags, st0) ->
  _tags <> [] ->
  delete_expired_tags sys cfg now fuel st0 = (r, st1) ->
  stdout sys st1 = stdout sys st
  /\ match r with
     | Ok deleted =>
         main sys cfg now fuel st
         = (Ok tt, {| world := world sys st1; log := log sys st1;
                      stdout := stdout sys st
                                  ++ map (deleted_line cfg) _tags |})
     | Raise e => main sys cfg now fuel st = (Raise e, st1)
     | OutOfFuel => main sys cfg now fuel st = (OutOfFuel, st1)
     end.
Proof.
  intros H0 Hne Hdel.
  assert (Hout : stdout sys st1 = stdout sys st).
  { rewrite (delete_expired_tags_silent sys cfg now fuel _ _ _ Hdel).
    exact (proj2 (quiet_tags_to_delete sys cfg now (fun _ => false)
                    eq_refl (fun _ _ => eq_refl) (fun _ => eq_refl)
                    fuel _ _ _ H0)). }
  split; [exact Hout|].
  unfold main. rewrite (bind_ok _ _ _ _ _ _ H0), (nonempty_length _ Hne).
  destruct r as [deleted|e|].
  - rewrite (bind_ok _ _ _ _ _ _ Hdel), print_deleted_run, Hout. reflexivity.
  - apply bind_raise, Hdel.
  - apply bind_out_of_fuel, Hdel.
Qed.

Lemma main_confirms_after_all_deletes_witness :
  let sys := Repo.sys [Script.old_record ["v1"]] in
  let run := main sys Fixture.json_config Fixture.a_now 5
               (Fixture.start (sys := sys) ["v1"; "v2"]) in
  fst run = Ok tt
  /\ stdout sys (snd run) = ["> Deleted org/repo:v1"]
  /\ world sys (snd run) = ["v2"].
Proof.
  intros sys run.
  destruct (main_confirms_after_all_deletes
              sys Fixture.json_config Fixture.a_now 5
              (Fixture.start (sys := sys) ["v1"; "v2"]) _ _ ["v1"] (Ok ["v1"])
              eq_refl ltac:(discriminate) eq_refl) as [_ H].
  unfold run. rewrite H. repeat split.
Defined.

(** C4, as the claim words it, fails: the delete of [a] is answered 204,
    the delete of [b] is answered 500, and no line is printed for [a]. *)
Lemma deleted_tag_without_confirmation :
  let sys := Fixture.tape_system [Script.old_record ["*"]] [] in
  let run := main sys Fixture.json_config Fixture.a_now 5
               (Fixture.start (sys := sys) Script.second_delete_500) in
  nth_error Script.second_delete_500 5 = Some (Fixture.status_only 204)
  /\ nth_error (filter is_delete (log sys (snd run))) 0
     = Some (delete_request Fixture.json_config (JStr "jwt") "a")
  /\ fst run = Raise (HTTPError 500)
  /\ stdout sys (snd run) = [].
Proof. vm_compute. repeat split. Qed.

(** ** A date that does not parse *)

Section Bad_date.

Variable sys : system.
Variable cfg : config.
Variable now : datetime.

Lemma scan_items_app (fuel : nat) (l1 l2 : list item) :
  forall tags_list st,
    scan_items sys cfg now fuel (l1 ++ l2) tags_list st
    = bind sys (scan_items sys cfg now fuel l1 tags_list)
        (fun rows => scan_items sys cfg now fuel l2 rows) st.
Proof.
  induction l1 as [|it l1 IH]; intros tags_list st.
  - reflexivity.
  - cbn [app scan_items]. unfold bind, lift in *.
    destruct (parse_date sys cfg (date it)) as [d| |]; try reflexivity.
    destruct (py_ge now d) as [[|]| |]; try reflexivity.
    + destruct (match_patterns sys cfg fuel (tags it) tags_list st)
        as [[l| |] st1]; try reflexivity.
      apply IH.
    + apply IH.
Qed.

(** A failure of [match_patterns] is the failure of the listing made for
    one of the patterns. *)
Lemma match_patterns_failure (fuel : nat) (patterns : list string) :
  forall tags_list st r st1 f,
    match_patterns sys cfg fuel patterns tags_list st = (r, st1) ->
    failed r = Some f ->
    exists pattern sta r',
      In pattern patterns
      /\ tags_matching_pattern sys cfg fuel (PyStr.strip pattern) sta = (r', st1)
      /\ failed r' = Some f.
Proof.
  induction patterns as [|pattern rest IH]; intros tags_list st r st1 f H Hf.
  - inversion H; subst. discriminate.
  - cbn [match_patterns] in H. unfold bind in H.
    destruct (tags_matching_pattern sys cfg fuel (PyStr.strip pattern) st)
      as [[t| |] st2] eqn:E.
    + destruct (IH _ _ _ _ _ H Hf) as [p [sta [r' [Hin Hrun]]]].
      exists p, sta, r'. split; [right; exact Hin | exact Hrun].
    + inversion H; subst. exists pattern, st, (Raise e).
      split; [left; reflexivity | split; [exact E | exact Hf]].
    + inversion H; subst. exists pattern, st, OutOfFuel.
      split; [left; reflexivity | split; [exact E | exact Hf]].
Qed.

(** When the dates can all be compared with now, a failure of the scan is
    the failure of the listing made for a pattern of a due record. *)
Lemma scan_items_failure (fuel : nat) (items : list item) :
  Forall (fun it => is_due sys cfg now it <> None) items ->
  forall tags_list st r st1 f,
    scan_items sys cfg now fuel items tags_list st = (r, st1) ->
    failed r = Some f ->
    exists it pattern sta r',
      In it items /\ is_due sys cfg now it = Some true
      /\ In pattern (tags it)
      /\ tags_matching_pattern sys cfg fuel (PyStr.strip pattern) sta = (r', st1)
      /\ failed r' = Some f.
Proof.
  induction 1 as [|it items Hit _ IH]; intros tags_list st r st1 f H Hf.
  - inversion H; subst. discriminate.
  - cbn [scan_items] in H. unfold bind at 1, lift in H. unfold is_due in Hit.
    destruct (parse_date sys cfg (date it)) as [d| |] eqn:Hd;
      cbn [rbind] in Hit; try congruence.
    unfold bind at 1 in H.
    destruct (py_ge now d) as [due| |] eqn:Hg; try congruence.
    destruct due.
    + unfold bind at 1 in H.
      destruct (match_patterns sys cfg fuel (tags it) tags_list st)
        as [rm st2] eqn:Em.
      destruct rm as [l| |].
      * destruct (IH _ _ _ _ _ H Hf) as [it' [p [sta [r' [Hin Hrest]]]]].
        exists it', p, sta, r'. split; [right; exact Hin | exact Hrest].
      * inversion H; subst.
        destruct (match_patterns_failure fuel _ _ _ _ _ _ Em Hf)
          as [p [sta [r' [Hin Hrun]]]].
        exists it, p, sta, r'. split; [left; reflexivity|].
        split; [|split; [exact Hin | exact Hrun]].
        unfold is_due. rewrite Hd. cbn [rbind]. rewrite Hg. reflexivity.
      * inversion H; subst.
        destruct (match_patterns_failure fuel _ _ _ _ _ _ Em Hf)
          as [p [sta [r' [Hin Hrun]]]].
        exists it, p, sta, r'. split; [left; reflexivity|].
        split; [|split; [exact Hin | exact Hrun]].
        unfold is_due. rewrite Hd. cbn [rbind]. rewrite Hg. reflexivity.
    + destruct (IH _ _ _ _ _ H Hf) as [it' [p [sta [r' [Hin Hrest]]]]].
      exists it', p, sta, r'. split; [right; exact Hin | exact Hrest].
Qed.

End Bad_date.

(** C8, as the code has it.  Take a record whose date does not match the
    format, and the records before it.  The run sends no delete and prints
    nothing, and it does not end well: it stops at the first failure met in
    the order of the records.  If the records before the bad one are
    scanned to the end, the run fails with the [ValueError] of the date.
    If their scan fails, the run fails in the same way; and when the dates
    of these records all parse and compare with now, that failure is the
    failure of the listing made for a pattern of a due record: its
    exception, or no end when the listing paginates without end. *)
Theorem main_bad_date_no_delete
        (sys : system) (cfg : config) (now : datetime) (fuel : nat)
        (pre post : list item) (bad : item) (st st1 : state sys)
        (r : result (list (option (list string)))) :
  get_tag_list sys cfg = Ok (pre ++ bad :: post) ->
  parse_date sys cfg (date bad) = Raise ValueError ->
  scan_items sys cfg now fuel pre [] st = (r, st1) ->
  filter is_delete (log sys st1) = filter is_delete (log sys st)
  /\ stdout sys st1 = stdout sys st
  /\ match failed r with
     | None => main sys cfg now fuel st = (Raise ValueError, st1)
     | Some f =>
         (exists r', main sys cfg now fuel st = (r', st1)
                     /\ failed r' = Some f)
         /\ (Forall (fun it => is_due sys cfg now it <> None) pre ->
             exists it pattern sta r'',
               In it pre /\ is_due sys cfg now it = Some true
               /\ In pattern (tags it)
               /\ tags_matching_pattern sys cfg fuel (PyStr.strip pattern) sta
                  = (r'', st1)
               /\ failed r'' = Some f)
     end.
Proof.
  intros Hitems Hbad Hscan.
  destruct (quiet_scan_items sys cfg now is_delete eq_refl
              (fun _ _ => eq_refl) (fun _ => eq_refl) fuel pre [] _ _ _ Hscan)
    as [Hd Ho].
  split; [exact Hd | split; [exact Ho|]].
  assert (Hmain : main sys cfg now fuel st
                  = (match r with
                     | Ok _ => Raise ValueError
                     | Raise e => Raise e
                     | OutOfFuel => OutOfFuel
                     end, st1)).
  { unfold main, tags_to_delete. unfold bind at 1 2 3, lift.
    rewrite Hitems, scan_items_app. unfold bind at 1. rewrite Hscan.
    destruct r as [rows|e|]; try reflexivity.
    cbn [scan_items]. unfold bind at 1, lift. rewrite Hbad. reflexivity. }
  destruct r as [rows|e|]; cbn [failed].
  - exact Hmain.
  - split; [eexists; split; [exact Hmain | reflexivity]|]. intro Hpre.
    exact (scan_items_failure sys cfg now fuel pre Hpre _ _ _ _ _ Hscan eq_refl).
  - split; [eexists; split; [exact Hmain | reflexivity]|]. intro Hpre.
    exact (scan_items_failure sys cfg now fuel pre Hpre _ _ _ _ _ Hscan eq_refl).
Qed.

Lemma main_bad_date_no_delete_witness :
  let sys := Repo.sys [Script.old_record ["1.*"]; Script.bad_record] in
  let run := main sys Fixture.json_config Fixture.a_now 5
               (Fixture.start (sys := sys) Repo.live) in
  fst run = Raise ValueError
  /\ filter is_delete (log sys (snd run)) = []
  /\ world sys (snd run) = Repo.live.
Proof.
  intros sys run.
  destruct (main_bad_date_no_delete
              sys Fixture.json_config Fixture.a_now 5
              [Script.old_record ["1.*"]] [] Script.bad_record
              (Fixture.start (sys := sys) Repo.live) _ _
              eq_refl eq_refl eq_refl)
    as [_ [_ H]].
  unfold run. cbn [failed] in H. rewrite H. repeat split.
Defined.

(** C8, as the claim words it, fails: with a due record before the bad
    one and a registry that refuses the login, the run fails with
    [HTTPError] 401, not with the error of the date. *)
Lemma bad_date_after_failed_listing :
  let sys := Fixture.tape_system
               [Script.old_record ["1.*"]; Script.bad_record] [] in
  let run := main sys Fixture.json_config Fixture.a_now 5
               (Fixture.start (sys := sys) Script.login_401) in
  parse_date sys Fixture.json_config (date Script.bad_record)
  = Raise ValueError
  /\ fst run = Raise (HTTPError 401)
  /\ filter is_delete (log sys (snd run)) = [].
Proof. vm_compute. repeat split. Qed.

(** ** The models of the library functions, on examples *)

Example fnmatch_prefix :
  map (fun n => Fnmatch.fnmatch n "1.*") ["1.0"; "1.2.3"; "2.0"; "21.0"]
  = [true; true; false; false].
Proof. reflexivity. Qed.

Example fnmatch_sets :
  map (fun n => Fnmatch.fnmatch n "v[0-9]?[!a-c]") ["v12d"; "v1xa"; "vx2d"; "v12"]
  = [true; false; false; false].
Proof. reflexivity. Qed.

Example fnmatch_open_bracket :
  map (fun n => Fnmatch.fnmatch n "[]-]x[") ["]x["; "-x["; "ax["]
  = [true; true; false].
Proof. reflexivity. Qed.

Example strptime_default_format :
  Strptime.strptime "January 05, 2024" Strptime.default_format
  = Ok {| year := 2024; month := 1; day := 5; hour := 0; minute := 0;
          second := 0; microsecond := 0; utcoffset := None |}
  /\ Strptime.strptime "13/45/2024" Strptime.default_format = Raise ValueError
  /\ Strptime.strptime "February 30, 2024" Strptime.default_format
     = Raise ValueError.
Proof. repeat split. Qed.

(** No source is configured: the script prints that there is nothing to
    delete and sends no request. *)
Example main_without_sources :
  let sys := Fixture.tape_system [] [] in
  let run := main sys (Fixture.example_config None None 1 2) Fixture.a_now 5
               (Fixture.start (sys := sys) Script.login_401) in
  fst run = Ok tt
  /\ log sys (snd run) = []
  /\ stdout sys (snd run) = ["There are no tags to delete."]
  /\ exit_status (fst run) = Some 0.
Proof. vm_compute. repeat split. Qed.

(** * Further properties of the script *)

(** ** The listing *)

(** X1.  When the login succeeds and the server answers the pages of the
    tag list up to a page without a [next] link, [tags_matching_pattern]
    returns the names of all the pages that match the pattern, in the order
    of the pages, ends in the world the last page left, prints nothing and
    sends no delete. *)
Theorem listing_returns_matching_names
        (sys : system) (cfg : config) (pattern : string)
        (w : World sys) (pages : list (list string)) (wend : World sys)
        (fuel : nat) (st : state sys) :
  listing sys cfg w pages EndOfList wend ->
  world sys st = w ->
  (length pages < fuel)%nat ->
  exists st',
    tags_matching_pattern sys cfg fuel pattern st
    = (Ok (Some (matching pattern (concat pages))), st')
    /\ world sys st' = wend
    /\ stdout sys st' = stdout sys st
    /\ filter is_delete (log sys st') = filter is_delete (log sys st).
Proof.
  intros Hl Hw Hlen.
  destruct (tags_matching_pattern_listing sys cfg pattern w pages EndOfList
              wend Hl fuel st Hw Hlen) as [st' [Hrun Hend]].
  exists st'. split; [exact Hrun | split; [exact Hend|]].
  destruct (quiet_tags_matching_pattern sys cfg is_delete eq_refl
              (fun _ _ => eq_refl) (fun _ => eq_refl) fuel pattern _ _ _ Hrun)
    as [Hd Ho].
  split; [exact Ho | exact Hd].
Qed.

Lemma listing_returns_matching_names_witness :
  exists st',
    tags_matching_pattern (Repo.sys []) Fixture.json_config 5 "*.0"
      (Fixture.start (sys := Repo.sys []) Repo.live)
    = (Ok (Some ["1.0"; "2.0"]), st').
Proof.
  destruct (listing_returns_matching_names
              (Repo.sys []) Fixture.json_config "*.0" Repo.live
              [["1.0"; "1.2.3"]; ["2.0"]] Repo.live 5
              (Fixture.start (sys := Repo.sys []) Repo.live))
    as [st' [H _]].
  - eapply listing_intro; try reflexivity.
    eapply pages_more; [reflexivity | a_page | reflexivity..|].
    eapply pages_last; [reflexivity | a_page | reflexivity].
  - reflexivity.
  - simpl. lia.
  - exists st'. exact H.
Defined.

(** X2.  In every iteration of the loop that follows a [next] link, an
    answer with a 4xx or 5xx status other than 404 raises [HTTPError] with
    that status; nothing else is sent. *)
Theorem next_page_error_raises
        (sys : system) (fuel : nat) (token : json) (pattern u : string)
        (resp resp' : response) (acc : list string) (st : state sys)
        (w' : World sys) :
  PyStr.truthy u = true ->
  send sys (next_request u token) (world sys st) = (Ok resp', w') ->
  is_http_error resp' = true ->
  status_code resp' <> 404 ->
  pagination sys (S fuel) token pattern (JStr u) resp acc st
  = (Raise (HTTPError (status_code resp')),
     {| world := w'; log := log sys st ++ [next_request u token];
        stdout := stdout sys st |}).
Proof.
  intros Hu Hs Herr H404.
  cbn [pagination py_truthy]. rewrite Hu.
  unfold bind at 1. unfold bind at 1. cbn [get_next].
  rewrite http_run, Hs. cbn [fst snd]. rewrite Herr.
  destruct (Z.eqb_spec (status_code resp') 404) as [E|_]; [contradiction|].
  reflexivity.
Qed.

Lemma next_page_error_raises_witness :
  let sys := Fixture.tape_system [] [] in
  fst (pagination sys 1 (JStr "jwt") "1.*" (JStr "https://next/2")
         {| status_code := 200; json_body := None |} ["1.0"]
         (Fixture.start (sys := sys) [Fixture.error_body 503]))
  = Raise (HTTPError 503).
Proof.
  intro sys.
  rewrite (next_page_error_raises sys 0 (JStr "jwt") "1.*" "https://next/2"
             {| status_code := 200; json_body := None |}
             {| status_code := 503;
                json_body := Some (JObj [("detail", JStr "error")]) |}
             ["1.0"] (Fixture.start (sys := sys) [Fixture.error_body 503])
             [] eq_refl eq_refl eq_refl ltac:(discriminate)).
  reflexivity.
Defined.

(** X3.  The loop has no bound of its own: against a server that answers
    every request for a next page with a page that carries a next link
    again, no amount of fuel lets the pagination return. *)
Theorem endless_next_links_never_return
        (sys : system) (token : json) (pattern : string) :
  (forall u w,
     exists resp w' j names u',
       send sys (next_request u token) w = (Ok resp, w')
       /\ is_http_error resp = false
       /\ json_body resp = Some j
       /\ is_page j names (JStr u')
       /\ PyStr.truthy u' = true) ->
  forall (fuel : nat) (u : string) (resp : response) (acc : list string)
         (st : state sys),
    PyStr.truthy u = true ->
    fst (pagination sys fuel token pattern (JStr u) resp acc st) = OutOfFuel.
Proof.
  intros Hserve fuel.
  induction fuel as [|fuel IH]; intros u resp acc st Hu; [reflexivity|].
  destruct (Hserve u (world sys st))
    as [resp' [w' [j [names [u' [Hs [Hok [Hj [[Hn [rs [Hr Hm]]] Hu']]]]]]]]].
  cbn [pagination py_truthy]. rewrite Hu.
  unfold bind at 1. unfold bind at 1. cbn [get_next].
  rewrite http_run, Hs. cbn [fst snd]. rewrite Hok. cbn [ret].
  unfold bind at 1. unfold resp_json. rewrite Hj. cbn [ret].
  unfold bind at 1. unfold lift at 1. rewrite Hr. cbn [rbind py_iter].
  unfold bind at 1. unfold lift at 1.
  rewrite (collect_names pattern rs names acc Hm).
  unfold bind at 1. unfold lift at 1. rewrite Hn.
  cbn [py_truthy]. rewrite Hu'. apply IH, Hu'.
Qed.

Lemma endless_next_links_never_return_witness :
  fst (pagination Fixture2.endless_system 1000 (JStr "jwt") "*"
         (JStr "https://next/again")
         {| status_code := 200; json_body := None |} []
         (Fixture.start (sys := Fixture2.endless_system) tt))
  = OutOfFuel.
Proof.
  apply (endless_next_links_never_return Fixture2.endless_system (JStr "jwt") "*").
  - intros u w. eexists. exists w. eexists. exists ["a"], "https://next/again".
    split; [reflexivity|]. split; [reflexivity|]. split; [reflexivity|].
    split; [a_page | reflexivity].
  - reflexivity.
Defined.

(** ** The login *)

(** X4.  When the login is answered with a 4xx or 5xx status,
    [docker_hub_token] raises [HTTPError] with that status, and so does
    everything that starts with a login: [tags_matching_pattern] sends no
    request for the tag list, [delete_expired_tags] lists and deletes
    nothing.  The login is the only request sent. *)
Theorem rejected_login_stops_the_operation
        (sys : system) (cfg : config) (now : datetime) (st : state sys)
        (auth : response) (w' : World sys) :
  send sys (login_request cfg) (world sys st) = (Ok auth, w') ->
  is_http_error auth = true ->
  let failed := (@Raise json (HTTPError (status_code auth)),
                 {| world := w'; log := log sys st ++ [login_request cfg];
                    stdout := stdout sys st |}) in
  docker_hub_token sys cfg st = failed
  /\ (forall fuel pattern,
        tags_matching_pattern sys cfg fuel pattern st
        = (Raise (HTTPError (status_code auth)), snd failed))
  /\ (forall fuel,
        delete_expired_tags sys cfg now fuel st
        = (Raise (HTTPError (status_code auth)), snd failed)).
Proof.
  intros Hs Herr failed.
  assert (Htok : docker_hub_token sys cfg st = failed).
  { unfold docker_hub_token. unfold bind at 1. rewrite http_run, Hs.
    cbn [fst snd]. unfold bind at 1, raise_for_status. rewrite Herr.
    reflexivity. }
  split; [exact Htok | split].
  - intros fuel pattern. unfold tags_matching_pattern.
    apply bind_raise. exact Htok.
  - intro fuel. unfold delete_expired_tags. apply bind_raise. exact Htok.
Qed.

Lemma rejected_login_stops_the_operation_witness :
  let sys := Fixture.tape_system [Script.old_record ["*"]] [] in
  let run := delete_expired_tags sys Fixture.json_config Fixture.a_now 5
               (Fixture.start (sys := sys) Script.login_401) in
  fst run = Raise (HTTPError 401)
  /\ log sys (snd run) = [login_request Fixture.json_config].
Proof.
  intros sys run. unfold run.
  rewrite (proj2 (proj2 (rejected_login_stops_the_operation
                           sys Fixture.json_config Fixture.a_now
                           (Fixture.start (sys := sys) Script.login_401)
                           {| status_code := 401;
                              json_body := Some (JObj [("detail", JStr "error")]) |}
                           [] eq_refl eq_refl)) 5%nat).
  split; reflexivity.
Defined.

(** X5.  Whatever the server answers and however the pass ends,
    [tags_to_delete] sends no delete request and prints nothing. *)
Theorem tags_to_delete_never_deletes
        (sys : system) (cfg : config) (now : datetime) (fuel : nat)
        (st : state sys) :
  filter is_delete (log sys (snd (tags_to_delete sys cfg now fuel st)))
  = filter is_delete (log sys st)
  /\ stdout sys (snd (tags_to_delete sys cfg now fuel st)) = stdout sys st.
Proof.
  destruct (tags_to_delete sys cfg now fuel st) as [r st'] eqn:E.
  exact (quiet_tags_to_delete sys cfg now is_delete eq_refl
           (fun _ _ => eq_refl) (fun _ => eq_refl) fuel _ _ _ E).
Qed.

(** ** The sources *)

(** X6.  [get_tag_list] returns the records of the JSON file followed by
    the records of the Markdown table, each source in its own order; a
    source whose path is missing or empty contributes nothing. *)
Theorem get_tag_list_json_then_markdown
        (sys : system) (cfg : config) (js ms : list item) :
  match file_given (json_file cfg) with
  | Some p => load_json sys p = Ok js
  | None => js = []
  end ->
  match file_given (md_file (markdown cfg)) with
  | Some q => exists lines,
      readlines sys q = Ok lines /\ get_readme_table cfg lines = Ok ms
  | None => ms = []
  end ->
  get_tag_list sys cfg = Ok (js ++ ms).
Proof.
  intros Hj Hm. unfold get_tag_list, json_tags.
  destruct (file_given (json_file cfg)) as [p|];
    destruct (file_given (md_file (markdown cfg))) as [q|].
  - destruct Hm as [lines [Hl Hr]]. rewrite Hj, Hl. simpl. rewrite Hr.
    simpl. rewrite app_nil_r. reflexivity.
  - rewrite Hj, Hm. simpl. reflexivity.
  - destruct Hm as [lines [Hl Hr]]. subst js. rewrite Hl. simpl. rewrite Hr.
    simpl. rewrite app_nil_r. reflexivity.
  - subst. reflexivity.
Qed.

Lemma get_tag_list_json_then_markdown_witness :
  get_tag_list (Fixture.tape_system [Script.bad_record] Fixture2.one_table)
    Fixture2.both_config
  = Ok [Script.bad_record;
        {| tags := ["1.*"; " 2.*"]; date := "January 01, 2020" |};
        {| tags := ["3.0"]; date := "January 01, 2030" |}].
Proof.
  apply (get_tag_list_json_then_markdown
           (Fixture.tape_system [Script.bad_record] Fixture2.one_table)
           Fixture2.both_config [Script.bad_record]
           [ {| tags := ["1.*"; " 2.*"]; date := "January 01, 2020" |};
             {| tags := ["3.0"]; date := "January 01, 2030" |} ]).
  - reflexivity.
  - exists Fixture2.one_table. split; reflexivity.
Defined.

Section No_work.

Variable sys : system.
Variable cfg : config.
Variable now : datetime.

Lemma scan_items_none_due (fuel : nat) (items : list item) :
  Forall (fun it => is_due sys cfg now it = Some false) items ->
  forall tags_list st,
    scan_items sys cfg now fuel items tags_list st = (Ok tags_list, st).
Proof.
  induction 1 as [|it items Hit _ IH]; intros tags_list st; [reflexivity|].
  cbn [scan_items]. unfold bind at 1, lift. unfold is_due in Hit.
  destruct (parse_date sys cfg (date it)) as [d| |]; try discriminate.
  cbn [rbind] in Hit. unfold bind at 1.
  destruct (py_ge now d) as [[|]| |]; try discriminate. apply IH.
Qed.

Lemma main_nothing_to_do (fuel : nat) (items : list item) (st : state sys) :
  get_tag_list sys cfg = Ok items ->
  Forall (fun it => is_due sys cfg now it = Some false) items ->
  main sys cfg now fuel st
  = (Ok tt, {| world := world sys st; log := log sys st;
               stdout := stdout sys st ++ ["There are no tags to delete."] |}).
Proof.
  intros Hitems Hnone. unfold main, tags_to_delete.
  unfold bind at 1 2 3, lift.
  rewrite Hitems, (scan_items_none_due fuel items Hnone). reflexivity.
Qed.

End No_work.

(** X7.  When neither source is configured (the path is missing or empty),
    the script sends no request at all, prints that there are no tags to
    delete and ends with exit status 0. *)
Theorem main_without_sources_does_nothing
        (sys : system) (cfg : config) (now : datetime) (fuel : nat)
        (st : state sys) :
  file_given (json_file cfg) = None ->
  file_given (md_file (markdown cfg)) = None ->
  main sys cfg now fuel st
  = (Ok tt, {| world := world sys st; log := log sys st;
               stdout := stdout sys st ++ ["There are no tags to delete."] |})
  /\ exit_status (fst (main sys cfg now fuel st)) = Some 0.
Proof.
  intros Hj Hm.
  assert (H : main sys cfg now fuel st
              = (Ok tt, {| world := world sys st; log := log sys st;
                           stdout := stdout sys st
                                       ++ ["There are no tags to delete."] |})).
  { apply (main_nothing_to_do sys cfg now fuel []); [|constructor].
    unfold get_tag_list. rewrite Hj, Hm. reflexivity. }
  split; [exact H | rewrite H; reflexivity].
Qed.

Lemma main_without_sources_does_nothing_witness :
  let sys := Repo.sys [Script.old_record ["*"]] in
  let run := main sys (Fixture.example_config (Some "") None 1 2)
               Fixture.a_now 5 (Fixture.start (sys := sys) Repo.live) in
  fst run = Ok tt /\ log sys (snd run) = [] /\ world sys (snd run) = Repo.live.
Proof.
  intros sys run. unfold run.
  rewrite (proj1 (main_without_sources_does_nothing
                    sys (Fixture.example_config (Some "") None 1 2)
                    Fixture.a_now 5 (Fixture.start (sys := sys) Repo.live)
                    eq_refl eq_refl)).
  repeat split.
Defined.

(** X8.  [now] is a naive date.  When every record has a date that parses
    to a naive date whose instant lies after now, the script sends no
    request (it does not even log in), prints that there are no tags to
    delete and changes nothing. *)
Theorem main_no_record_due
        (sys : system) (cfg : config) (now : datetime) (fuel : nat)
        (items : list item) (st : state sys) :
  get_tag_list sys cfg = Ok items ->
  utcoffset now = None ->
  valid_date now ->
  Forall (fun it => exists d,
              parse_date sys cfg (date it) = Ok d
              /\ utcoffset d = None /\ valid_date d
              /\ wall_microseconds now < wall_microseconds d) items ->
  main sys cfg now fuel st
  = (Ok tt, {| world := world sys st; log := log sys st;
               stdout := stdout sys st ++ ["There are no tags to delete."] |}).
Proof.
  intros Hitems Hn Vn Hfuture.
  apply (main_nothing_to_do sys cfg now fuel items st Hitems).
  eapply Forall_impl; [|exact Hfuture].
  intros it [d [Hd [Ho [Vd Hlt]]]]. unfold is_due. rewrite Hd. cbn [rbind].
  rewrite (py_ge_naive now d Hn Ho Vn Vd).
  destruct (Z.leb_spec (wall_microseconds d) (wall_microseconds now));
    [lia | reflexivity].
Qed.

Lemma main_no_record_due_witness :
  let sys := Repo.sys [Fixture2.future_record ["*"]] in
  let run := main sys Fixture.json_config Fixture.a_now 5
               (Fixture.start (sys := sys) Repo.live) in
  fst run = Ok tt /\ log sys (snd run) = [] /\ world sys (snd run) = Repo.live.
Proof.
  intros sys run. unfold run.
  rewrite (main_no_record_due sys Fixture.json_config Fixture.a_now 5
             [Fixture2.future_record ["*"]]
             (Fixture.start (sys := sys) Repo.live) eq_refl eq_refl
             ltac:(vm_compute; repeat split; congruence)).
  - repeat split.
  - constructor; [|constructor]. eexists.
    split; [reflexivity|]. split; [reflexivity|].
    split; vm_compute; repeat split; congruence.
Defined.

(** ** A whole pass *)

Section Stable_listing.

Variable sys : system.
Variable cfg : config.
Variable now : datetime.
Variable fuel : nat.
Variable live : list string.
Variable Inv : World sys -> Prop.

Hypothesis serves_live :
  forall w, Inv w ->
    exists pages wend,
      listing sys cfg w pages EndOfList wend
      /\ concat pages = live /\ (length pages < fuel)%nat /\ Inv wend.

Lemma match_patterns_rows (patterns : list string) :
  forall tags_list st,
    Inv (world sys st) ->
    exists st',
      match_patterns sys cfg fuel patterns tags_list st
      = (Ok (tags_list
               ++ map Some (map (fun p => matching (PyStr.strip p) live)
                              patterns)), st')
      /\ Inv (world sys st').
Proof.
  induction patterns as [|pattern rest IH]; intros tags_list st Hinv.
  - exists st. simpl. rewrite app_nil_r. auto.
  - destruct (serves_live _ Hinv) as [pages [wend [Hl [Hc [Hlen Hend]]]]].
    destruct (tags_matching_pattern_listing sys cfg (PyStr.strip pattern)
                _ _ _ _ Hl fuel st eq_refl Hlen) as [st1 [Hrun Hw]].
    rewrite Hc in Hrun. cbn [outcome] in Hrun. rewrite <- Hw in Hend.
    destruct (IH (tags_list ++ [Some (matching (PyStr.strip pattern) live)])
                st1 Hend) as [st' [Hrest Hinv']].
    exists st'. cbn [match_patterns map].
    rewrite (bind_ok _ _ _ _ _ _ Hrun), Hrest, <- app_assoc.
    split; [reflexivity | exact Hinv'].
Qed.

Lemma scan_items_rows (items : list item) :
  Forall (fun it => is_due sys cfg now it <> None) items ->
  forall tags_list st,
    Inv (world sys st) ->
    exists st',
      scan_items sys cfg now fuel items tags_list st
      = (Ok (tags_list ++ map Some (due_rows sys cfg now live items)), st')
      /\ Inv (world sys st').
Proof.
  induction 1 as [|it items Hit _ IH]; intros tags_list st Hinv.
  - exists st. simpl. rewrite app_nil_r. auto.
  - cbn [scan_items due_rows flat_map]. unfold bind at 1, lift.
    unfold is_due in *.
    destruct (parse_date sys cfg (date it)) as [d| |];
      cbn [rbind] in *; try congruence.
    unfold bind at 1.
    destruct (py_ge now d) as [due| |]; try congruence.
    destruct due.
    + destruct (match_patterns_rows (tags it) tags_list st Hinv)
        as [st1 [Hm Hinv1]].
      rewrite (bind_ok _ _ _ _ _ _ Hm).
      destruct (IH (tags_list
                      ++ map Some (map (fun p => matching (PyStr.strip p) live)
                                     (tags it))) st1 Hinv1)
        as [st' [Hs Hinv']].
      exists st'. rewrite Hs, map_app, app_assoc. auto.
    + apply IH, Hinv.
Qed.

End Stable_listing.

(** X9.  When every listing answers the tags [live] and every date parses
    to a date that can be compared with now (no [TypeError]), a pass of
    [tags_to_delete] returns, for the due records in the order of
    the list and for their patterns in their order, the tags that match the
    stripped pattern: records that are not due contribute nothing, and a
    tag that several patterns match is returned once for each of them. *)
Theorem tags_to_delete_returns_due_rows
        (sys : system) (cfg : config) (now : datetime) (fuel : nat)
        (live : list string) (Inv : World sys -> Prop)
        (items : list item) (st : state sys) :
  (forall w, Inv w ->
     exists pages wend,
       listing sys cfg w pages EndOfList wend
       /\ concat pages = live /\ (length pages < fuel)%nat /\ Inv wend) ->
  get_tag_list sys cfg = Ok items ->
  Forall (fun it => is_due sys cfg now it <> None) items ->
  Inv (world sys st) ->
  exists st',
    tags_to_delete sys cfg now fuel st
    = (Ok (concat (due_rows sys cfg now live items)), st')
    /\ Inv (world sys st').
Proof.
  intros Hserve Hitems Hparse Hinv.
  destruct (scan_items_rows sys cfg now fuel live Inv Hserve items Hparse
              [] st Hinv) as [st' [Hs Hinv']].
  exists st'. split; [|exact Hinv'].
  unfold tags_to_delete. unfold bind at 1, lift. rewrite Hitems.
  rewrite (bind_ok _ _ _ _ _ _ Hs). cbn [app].
  destruct (due_rows sys cfg now live items) as [|row rows] eqn:E.
  - reflexivity.
  - rewrite <- E. replace (0 <? _) with true.
    + unfold lift. rewrite flatten_some. reflexivity.
    + rewrite E. reflexivity.
Qed.

Lemma tags_to_delete_returns_due_rows_witness :
  let items := [Repo.row_record; Fixture2.future_record ["*"];
                Script.old_record ["*.0"]] in
  exists st',
    tags_to_delete (Repo.sys items) Fixture.json_config Fixture.a_now 5
      (Fixture.start (sys := Repo.sys items) Repo.live)
    = (Ok ["1.0"; "1.2.3"; "2.0"; "1.0"; "2.0"], st').
Proof.
  intro items.
  destruct (tags_to_delete_returns_due_rows
              (Repo.sys items) Fixture.json_config Fixture.a_now 5 Repo.live
              (fun w => w = Repo.live) items
              (Fixture.start (sys := Repo.sys items) Repo.live))
    as [st' [H _]].
  - intros w ->. exists [["1.0"; "1.2.3"]; ["2.0"]], Repo.live.
    split; [|split; [reflexivity | split; [simpl; lia | reflexivity]]].
    eapply listing_intro; try reflexivity.
    eapply pages_more; [reflexivity | a_page | reflexivity..|].
    eapply pages_last; [reflexivity | a_page | reflexivity].
  - reflexivity.
  - repeat constructor; discriminate.
  - reflexivity.
  - exists st'. exact H.
Defined.

(** X10.  When the login succeeds and no delete is answered an error,
    [delete_expired_tags] sends one delete for every name that its own pass
    of [tags_to_delete] returned, in that order and all with the token of
    its one login, and returns these names; it prints nothing. *)
Theorem delete_expired_tags_deletes_all
        (sys : system) (cfg : config) (now : datetime) (fuel : nat)
        (st st1 st2 : state sys) (token : json) (names : list string)
        (wend : World sys) :
  docker_hub_token sys cfg st = (Ok token, st1) ->
  tags_to_delete sys cfg now fuel st1 = (Ok names, st2) ->
  deletes_ok sys cfg token (world sys st2) names wend ->
  delete_expired_tags sys cfg now fuel st
  = (Ok names,
     {| world := wend;
        log := log sys st2 ++ map (delete_request cfg token) names;
        stdout := stdout sys st |})
  /\ filter is_delete (log sys st2) = filter is_delete (log sys st).
Proof.
  intros Htok Htags Hdel.
  destruct (quiet_docker_hub_token sys cfg is_delete eq_refl _ _ _ Htok)
    as [Hd1 Ho1].
  destruct (quiet_tags_to_delete sys cfg now is_delete eq_refl
              (fun _ _ => eq_refl) (fun _ => eq_refl) fuel _ _ _ Htags)
    as [Hd2 Ho2].
  split; [|congruence].
  unfold delete_expired_tags.
  rewrite (bind_ok _ _ _ _ _ _ Htok), (bind_ok _ _ _ _ _ _ Htags).
  rewrite (delete_loop_ok sys cfg token _ names wend Hdel [] st2 eq_refl).
  cbn [app]. rewrite Ho2, Ho1. reflexivity.
Qed.

Lemma delete_expired_tags_deletes_all_witness :
  let sys := Repo.sys [Script.old_record ["1.*"]] in
  let run := delete_expired_tags sys Fixture.json_config Fixture.a_now 5
               (Fixture.start (sys := sys) Repo.live) in
  fst run = Ok ["1.0"; "1.2.3"]
  /\ world sys (snd run) = ["2.0"]
  /\ filter is_delete (log sys (snd run))
     = [delete_request Fixture.json_config (JStr "jwt") "1.0";
        delete_request Fixture.json_config (JStr "jwt") "1.2.3"].
Proof.
  intros sys run. unfold run.
  rewrite (proj1 (delete_expired_tags_deletes_all
                    sys Fixture.json_config Fixture.a_now 5
                    (Fixture.start (sys := sys) Repo.live) _ _ (JStr "jwt")
                    ["1.0"; "1.2.3"] ["2.0"] eq_refl eq_refl
                    ltac:(repeat (eapply deletes_cons;
                                  [reflexivity | reflexivity |]);
                          apply deletes_nil))).
  repeat split.
Defined.

(** ** The Markdown table *)

Section Table_facts.

Variable cfg : config.

Lemma outside_region_no_rows (lines : list string) :
  Forall (fun l => PyStr.startswith l (begin_string (markdown cfg)) = false)
         lines ->
  candidate_rows cfg lines false = [] /\ parsing_after cfg lines false = false.
Proof.
  induction 1 as [|line lines Hl _ [IH1 IH2]]; [split; reflexivity|].
  cbn [candidate_rows parsing_after]. rewrite Hl. cbn [andb].
  destruct (PyStr.startswith line (end_string (markdown cfg))); auto.
Qed.

Lemma strip_keeps_pipe (line : string) :
  PyStr.startswith line "|" = true -> PyStr.truthy (PyStr.strip line) = true.
Proof.
  destruct line as [|c rest]; [discriminate|].
  unfold PyStr.startswith. cbn [String.prefix].
  destruct (ascii_dec "|" c) as [<-|]; [intros _ | discriminate].
  unfold PyStr.strip. cbn [PyStr.rstrip].
  destruct (PyStr.rstrip rest); reflexivity.
Qed.

Lemma inside_region_all_rows (lines : list string) :
  Forall (is_row cfg) lines ->
  candidate_rows cfg lines true = lines /\ parsing_after cfg lines true = true.
Proof.
  induction 1 as [|line lines [Hp Hi] _ [IH1 IH2]]; [split; reflexivity|].
  cbn [candidate_rows parsing_after].
  unfold line_is_ignored in Hi. apply orb_false_elim in Hi.
  destruct Hi as [Hb He]. rewrite Hb, He, Hp, (strip_keeps_pipe line Hp).
  unfold line_is_ignored. rewrite Hb, He. cbn [andb orb negb].
  rewrite IH1, IH2. auto.
Qed.

End Table_facts.

(** X11.  Lines are read only after a line that begins with the begin
    marker: a file without such a line gives no record, whatever its rows
    look like, and no row of it is parsed. *)
Theorem get_readme_table_without_begin_marker
        (cfg : config) (lines : list string) :
  Forall (fun l => PyStr.startswith l (begin_string (markdown cfg)) = false)
         lines ->
  get_readme_table cfg lines = Ok [].
Proof.
  intro H. unfold get_readme_table. rewrite readme_loop_rows by lia.
  rewrite (proj1 (outside_region_no_rows cfg lines H)). reflexivity.
Qed.

Lemma get_readme_table_without_begin_marker_witness :
  get_readme_table (Fixture.example_config None (Some "README.md") 7 7)
    ["| Tag | Date |"; "|---|---|"; "| `1.*` | January 01, 2020 |";
     "<!-- END deletion_table -->"; "| x |"]
  = Ok [].
Proof.
  apply get_readme_table_without_begin_marker.
  repeat constructor.
Defined.

(** X12.  For a file with one table region (lines without begin marker, a
    begin marker line, a header row, a separator row, the rows of the
    table, an end marker line, and again lines without begin marker) the
    reader returns the records of the rows of the table, in order: as many
    records as rows, or the error of the first row that does not parse.
    Rows before the begin marker and after the end marker are not read. *)
Theorem get_readme_table_one_region
        (cfg : config)
        (before after rows : list string) (b header separator e : string) :
  Forall (fun l => PyStr.startswith l (begin_string (markdown cfg)) = false)
         before ->
  PyStr.startswith b (begin_string (markdown cfg)) = true ->
  PyStr.startswith b (end_string (markdown cfg)) = false ->
  Forall (is_row cfg) (header :: separator :: rows) ->
  PyStr.startswith e (end_string (markdown cfg)) = true ->
  Forall (fun l => PyStr.startswith l (begin_string (markdown cfg)) = false)
         after ->
  get_readme_table cfg
    (before ++ [b] ++ (header :: separator :: rows) ++ [e] ++ after)
  = rmap (parse_md_line cfg) rows.
Proof.
  intros Hbefore Hb Hbe Hrows He Hafter.
  unfold get_readme_table. rewrite readme_loop_rows by lia.
  rewrite rbind_ok_id. replace (Z.to_nat (2 - 0)) with 2%nat by reflexivity.
  destruct (outside_region_no_rows cfg before Hbefore) as [Hc1 Hp1].
  destruct (inside_region_all_rows cfg _ Hrows) as [Hc2 Hp2].
  destruct (outside_region_no_rows cfg after Hafter) as [Hc3 _].
  set (table := header :: separator :: rows) in *.
  set (rest := [e] ++ after).
  rewrite candidate_rows_app, Hc1, Hp1.
  change ([] ++ ?x) with x. change ([b] ++ ?x) with (b :: x).
  cbn [candidate_rows]. rewrite Hb, Hbe.
  unfold line_is_ignored at 1. rewrite Hb.
  rewrite andb_false_r. cbn [andb].
  rewrite candidate_rows_app, Hc2, Hp2.
  unfold rest. change ([e] ++ after) with (e :: after).
  cbn [candidate_rows]. rewrite He.
  unfold line_is_ignored at 1. rewrite He, orb_true_r.
  rewrite !andb_false_r.
  cbn [andb]. rewrite Hc3, app_nil_r. reflexivity.
Qed.

Lemma get_readme_table_one_region_witness :
  get_readme_table Fixture2.both_config Fixture2.one_table
  = Ok [ {| tags := ["1.*"; " 2.*"]; date := "January 01, 2020" |};
         {| tags := ["3.0"]; date := "January 01, 2030" |} ].
Proof.
  change Fixture2.one_table
    with (["# Tags"; "| not | a row |"]
            ++ ["<!-- BEGIN deletion_table -->"]
            ++ ["| Tag | Date |"; "|-----|------|";
                "| `1.*`, `2.*` | January 01, 2020 |";
                "| `3.0` | January 01, 2030 |"]
            ++ ["<!-- END deletion_table -->"]
            ++ ["| after | the table |"]).
  rewrite (get_readme_table_one_region Fixture2.both_config).
  - reflexivity.
  - repeat constructor.
  - reflexivity.
  - reflexivity.
  - repeat constructor.
  - reflexivity.
  - repeat constructor.
Defined.

(** ** What a parsed row looks like *)

Lemma split_not_nil (sep : ascii) (s : string) : PyStr.split sep s <> [].
Proof.
  destruct s as [|c s]; simpl; [discriminate|].
  destruct (Ascii.eqb c sep); [discriminate|].
  destruct (PyStr.split sep s); discriminate.
Qed.

(** The pieces of a split hold no separator, and no character that the
    string did not hold. *)
Lemma split_pieces (sep c : ascii) (s : string) :
  (Ascii.eqb c sep = true \/ contains c s = false) ->
  Forall (fun t => contains c t = false) (PyStr.split sep s).
Proof.
  induction s as [|a s IH]; intro H.
  - repeat constructor.
  - cbn [PyStr.split].
    assert (Hs : Ascii.eqb c sep = true \/ contains c s = false).
    { destruct H as [H|H]; [auto|]. cbn [contains] in H.
      apply orb_false_elim in H. tauto. }
    specialize (IH Hs).
    destruct (Ascii.eqb a sep) eqn:Ea.
    + constructor; [reflexivity | exact IH].
    + destruct (PyStr.split sep s) as [|h t] eqn:E.
      * destruct (split_not_nil sep s E).
      * inversion IH as [|? ? Hh Ht]; subst. constructor; [|exact Ht].
        cbn [contains]. rewrite Hh, orb_false_r.
        destruct H as [H|H].
        -- apply Ascii.eqb_eq in H. subst c. exact Ea.
        -- cbn [contains] in H. apply orb_false_elim in H. tauto.
Qed.

Lemma remove_removes (c : ascii) (s : string) :
  contains c (PyStr.remove c s) = false.
Proof.
  induction s as [|a s IH]; [reflexivity|].
  cbn [PyStr.remove]. destruct (Ascii.eqb a c) eqn:E; [exact IH|].
  cbn [contains]. rewrite E, IH. reflexivity.
Qed.

Lemma lstrip_fixed (c : ascii) (s : string) :
  PyStr.isspace c = false -> PyStr.lstrip (String c s) = String c s.
Proof. intro H. cbn [PyStr.lstrip]. rewrite H. reflexivity. Qed.

Lemma rstrip_head (c : ascii) (s : string) :
  PyStr.isspace c = false ->
  exists r, PyStr.rstrip (String c s) = String c r.
Proof.
  intro H. cbn [PyStr.rstrip]. rewrite H.
  destruct (PyStr.rstrip s); eauto.
Qed.

Lemma rstrip_cons (c a : ascii) (s r : string) :
  PyStr.rstrip s = String a r ->
  PyStr.rstrip (String c s) = String c (String a r).
Proof. intro H. cbn [PyStr.rstrip]. rewrite H. reflexivity. Qed.

Lemma rstrip_idem (s : string) : PyStr.rstrip (PyStr.rstrip s) = PyStr.rstrip s.
Proof.
  induction s as [|c s IH]; [reflexivity|].
  destruct (PyStr.rstrip s) as [|a r] eqn:E.
  - cbn [PyStr.rstrip]. rewrite E.
    destruct (PyStr.isspace c) eqn:Hc; [reflexivity|].
    cbn [PyStr.rstrip]. rewrite Hc. reflexivity.
  - rewrite (rstrip_cons c a s r E). apply rstrip_cons. exact IH.
Qed.

Lemma lstrip_idem (s : string) : PyStr.lstrip (PyStr.lstrip s) = PyStr.lstrip s.
Proof.
  induction s as [|c s IH]; [reflexivity|].
  cbn [PyStr.lstrip]. destruct (PyStr.isspace c) eqn:Hc; [exact IH|].
  apply lstrip_fixed, Hc.
Qed.

Lemma rstrip_lstrip (s : string) :
  PyStr.rstrip (PyStr.lstrip s) = PyStr.lstrip (PyStr.rstrip s).
Proof.
  induction s as [|c s IH]; [reflexivity|].
  destruct (PyStr.isspace c) eqn:Hc.
  - cbn [PyStr.lstrip PyStr.rstrip]. rewrite Hc, IH.
    destruct (PyStr.rstrip s); [reflexivity|].
    cbn [PyStr.lstrip]. rewrite Hc. reflexivity.
  - rewrite (lstrip_fixed c s Hc).
    destruct (rstrip_head c s Hc) as [r Hr]. rewrite Hr.
    symmetry. apply lstrip_fixed, Hc.
Qed.

(** Stripping twice is stripping once. *)
Lemma strip_idem (s : string) : PyStr.strip (PyStr.strip s) = PyStr.strip s.
Proof.
  unfold PyStr.strip.
  rewrite (rstrip_lstrip (PyStr.rstrip s)), rstrip_idem, lstrip_idem.
  reflexivity.
Qed.

(** X13.  A row that [parse_md_line] accepts gives a record with at least
    one pattern, whose patterns hold no backtick and no comma, and whose
    date has no white space around it.  (A pattern may keep white space
    around it.) *)
Theorem parse_md_line_record_shape
        (cfg : config) (md_line : string) (it : item) :
  parse_md_line cfg md_line = Ok it ->
  tags it <> []
  /\ Forall (fun t => contains "`" t = false /\ contains "," t = false)
            (tags it)
  /\ PyStr.strip (date it) = date it.
Proof.
  unfold parse_md_line. intro H.
  destruct (_ >? _); [discriminate|].
  destruct (_ >? _); [discriminate|].
  destruct (py_getitem _ (tag_column _)) as [tags0| |]; try discriminate.
  destruct (py_getitem _ (date_column _)) as [date0| |]; try discriminate.
  cbn [rbind] in H. injection H as <-. cbn [tags date].
  split; [apply split_not_nil|]. split; [|apply strip_idem].
  apply Forall_forall. intros t Ht. split.
  - refine (proj1 (Forall_forall _ _) (split_pieces "," "`" _ _) t Ht).
    right. apply remove_removes.
  - refine (proj1 (Forall_forall _ _) (split_pieces "," "," _ _) t Ht).
    left. reflexivity.
Qed.

Lemma parse_md_line_record_shape_witness :
  exists it,
    parse_md_line Fixture2.both_config
      "  | `1.*`, `2.*` |   January 01, 2020  |  " = Ok it
    /\ tags it = ["1.*"; " 2.*"] /\ date it = "January 01, 2020"
    /\ PyStr.strip (date it) = date it.
Proof.
  eexists. split; [reflexivity|]. split; [reflexivity|].
  split; [reflexivity|].
  exact (proj2 (proj2 (parse_md_line_record_shape Fixture2.both_config
                         "  | `1.*`, `2.*` |   January 01, 2020  |  " _
                         eq_refl))).
Defined.

Lemma py_getitem_ok_iff {A} (l : list A) (i : Z) :
  (exists x, py_getitem l i = Ok x)
  <-> - Z.of_nat (length l) <= i < Z.of_nat (length l).
Proof.
  unfold py_getitem.
  destruct (Z.ltb_spec i 0) as [Hneg|Hpos].
  - destruct (Z.ltb_spec (i + Z.of_nat (length l)) 0) as [H1|H1]; cbn [orb].
    + split; [intros [x Hx]; discriminate | lia].
    + destruct (Z.leb_spec (Z.of_nat (length l)) (i + Z.of_nat (length l)));
        [lia|].
      destruct (nth_error l (Z.to_nat (i + Z.of_nat (length l)))) eqn:E.
      * split; [lia | eauto].
      * apply nth_error_None in E. lia.
  - destruct (Z.ltb_spec i 0); [lia|]. cbn [orb].
    destruct (Z.leb_spec (Z.of_nat (length l)) i) as [H1|H1].
    + split; [intros [x Hx]; discriminate | lia].
    + destruct (nth_error l (Z.to_nat i)) eqn:E.
      * split; [lia | eauto].
      * apply nth_error_None in E. lia.
Qed.

Lemma py_getitem_cases {A} (l : list A) (i : Z) :
  (exists x, py_getitem l i = Ok x)
  \/ py_getitem l i = Raise (IndexError "list index out of range").
Proof.
  unfold py_getitem. destruct (_ || _); [auto|].
  destruct (nth_error l _); eauto.
Qed.

(** X14.  For any column indices, 1-based or not: [parse_md_line] returns
    a record exactly when both indices [i] satisfy [-k <= i < k], where [k]
    is the number of fields of the stripped row split at the pipes; an
    index 0 takes the field before the first pipe and a negative index
    counts from the last field.  Every other row ends in [IndexError], and
    in no other error. *)
Theorem parse_md_line_any_index (cfg : config) (md_line : string) :
  let k := Z.of_nat (length (row_fields md_line)) in
  let ok i := - k <= i < k in
  ((exists it, parse_md_line cfg md_line = Ok it)
   <-> ok (tag_column (markdown cfg)) /\ ok (date_column (markdown cfg)))
  /\ ((exists msg, parse_md_line cfg md_line = Raise (IndexError msg))
      <-> ~ (ok (tag_column (markdown cfg)) /\ ok (date_column (markdown cfg)))).
Proof.
  intros k ok.
  set (tc := tag_column (markdown cfg)). set (dc := date_column (markdown cfg)).
  assert (Hyes : ok tc /\ ok dc -> exists it, parse_md_line cfg md_line = Ok it).
  { intros [Ht Hd]. unfold parse_md_line. fold (row_fields md_line).
    fold k tc dc.
    destruct (Z.gtb_spec tc (k - 1)); [unfold ok in Ht; lia|].
    destruct (Z.gtb_spec dc (k - 1)); [unfold ok in Hd; lia|].
    apply py_getitem_ok_iff in Ht, Hd.
    destruct Ht as [x ->], Hd as [y ->]. cbn [rbind]. eauto. }
  assert (Hno : ~ (ok tc /\ ok dc) ->
                exists msg, parse_md_line cfg md_line = Raise (IndexError msg)).
  { intro H. unfold parse_md_line. fold (row_fields md_line).
    fold k tc dc.
    destruct (Z.gtb_spec tc (k - 1)); [eauto|].
    destruct (Z.gtb_spec dc (k - 1)); [eauto|].
    destruct (py_getitem_cases (row_fields md_line) tc) as [[x Hx]|Hx];
      [|rewrite Hx; cbn [rbind]; eauto].
    destruct (py_getitem_cases (row_fields md_line) dc) as [[y Hy]|Hy];
      [|rewrite Hx, Hy; cbn [rbind]; eauto].
    exfalso. apply H. split; apply py_getitem_ok_iff; eauto. }
  assert (Hdec : (ok tc /\ ok dc) \/ ~ (ok tc /\ ok dc)) by (unfold ok; lia).
  split; split.
  - intros [it Hit]. destruct Hdec as [H|H]; [exact H|].
    destruct (Hno H) as [msg Hm]. congruence.
  - exact Hyes.
  - intros [msg Hm] H. destruct (Hyes H) as [it Hit]. congruence.
  - exact Hno.
Qed.

(** ** Patterns without a set *)

Section Fnmatch_facts.

Import Fnmatch.

Lemma list_ascii_app (p q : string) :
  list_ascii_of_string (p ++ q)%string
  = list_ascii_of_string p ++ list_ascii_of_string q.
Proof. induction p as [|c p IH]; simpl; [reflexivity | rewrite IH; reflexivity]. Qed.

Lemma string_of_list_app (a b : list ascii) :
  string_of_list_ascii (a ++ b)
  = (string_of_list_ascii a ++ string_of_list_ascii b)%string.
Proof. induction a as [|c a IH]; simpl; [reflexivity | rewrite IH; reflexivity]. Qed.

Lemma literal_char_plain (c : ascii) :
  literal_char c = true ->
  is_char c "*" = false /\ is_char c "?" = false /\ is_char c "[" = false.
Proof.
  unfold literal_char. intro H. apply negb_true_iff in H.
  apply orb_false_elim in H. destruct H as [H H3].
  apply orb_false_elim in H. tauto.
Qed.

Lemma translate_literal (lp tl : list ascii) :
  forallb literal_char lp = true ->
  translate (length (lp ++ tl)) (lp ++ tl) false
  = map Lit lp ++ translate (length tl) tl false.
Proof.
  induction lp as [|c lp IH]; intro H; [reflexivity|].
  cbn [forallb] in H. apply andb_true_iff in H. destruct H as [Hc Hl].
  destruct (literal_char_plain c Hc) as [H1 [H2 H3]].
  cbn [app length translate map]. rewrite H1, H2, H3, (IH Hl). reflexivity.
Qed.

Lemma matches_star (s : list ascii) : matches [Star] s = true.
Proof.
  induction s as [|c s IH]; [reflexivity|].
  cbn [matches] in *. cbn [orb]. exact IH.
Qed.

Lemma matches_nil (s : list ascii) : matches [] s = true <-> s = [].
Proof. destruct s; simpl; split; congruence. Qed.

Lemma matches_literal (lp : list ascii) (ts : list token) :
  forall s,
    matches (map Lit lp ++ ts) s = true
    <-> exists rest, s = lp ++ rest /\ matches ts rest = true.
Proof.
  induction lp as [|c lp IH]; intro s.
  - cbn [map app]. split; [eauto | intros [rest [-> H]]; exact H].
  - cbn [map app matches]. destruct s as [|ch s].
    + split; [discriminate | intros [rest [H _]]; discriminate].
    + cbn [token_accepts]. unfold is_char. split.
      * intro H. apply andb_true_iff in H. destruct H as [Hc Hm].
        apply Ascii.eqb_eq in Hc. subst ch.
        apply IH in Hm. destruct Hm as [rest [-> Hr]]. eauto.
      * intros [rest [H Hr]]. injection H as -> ->.
        rewrite Ascii.eqb_refl. cbn [andb]. apply IH. eauto.
Qed.

End Fnmatch_facts.

(** X15.  For a text [p] without wildcard characters: the pattern [p]
    matches the name [p] and no other name, and the pattern [p*] matches
    exactly the names that begin with [p], as the module documentation
    says of ['1.*']. *)
Theorem fnmatch_literal_and_prefix (p : string) :
  literal p = true ->
  forall n : string,
    (Fnmatch.fnmatch n p = true <-> n = p)
    /\ (Fnmatch.fnmatch n (p ++ "*")%string = true
        <-> exists rest : string, n = (p ++ rest)%string).
Proof.
  intros Hp n. unfold literal in Hp. unfold Fnmatch.fnmatch. split.
  - rewrite <- (app_nil_r (list_ascii_of_string p)).
    rewrite (translate_literal _ [] Hp). cbn [length Fnmatch.translate].
    rewrite matches_literal. split.
    + intros [rest [Hn Hr]]. apply matches_nil in Hr. subst rest.
      rewrite app_nil_r in Hn.
      rewrite <- (string_of_list_ascii_of_string n), Hn.
      apply string_of_list_ascii_of_string.
    + intros ->. exists []. split; [symmetry; apply app_nil_r | reflexivity].
  - rewrite list_ascii_app.
    rewrite (translate_literal _ (list_ascii_of_string "*") Hp).
    cbn [list_ascii_of_string length Fnmatch.translate].
    rewrite matches_literal. split.
    + intros [rest [Hn _]]. exists (string_of_list_ascii rest).
      rewrite <- (string_of_list_ascii_of_string n), Hn, string_of_list_app.
      rewrite string_of_list_ascii_of_string. reflexivity.
    + intros [rest ->]. exists (list_ascii_of_string rest).
      split; [apply list_ascii_app | apply matches_star].
Qed.

Lemma fnmatch_literal_and_prefix_witness :
  Fnmatch.fnmatch "1.2.3" "1.*" = true /\ Fnmatch.fnmatch "1.2.3" "1." = false.
Proof.
  split.
  - apply (proj2 (fnmatch_literal_and_prefix "1." eq_refl "1.2.3")).
    exists "2.3". reflexivity.
  - destruct (Fnmatch.fnmatch "1.2.3" "1.") eqn:E; [|reflexivity].
    apply (proj1 (fnmatch_literal_and_prefix "1." eq_refl "1.2.3")) in E.
    discriminate.
Defined.

(** ** The main program and its two passes *)

(** X16.  The main program matches the tags twice: once itself and once
    more inside [delete_expired_tags].  When no delete is answered an
    error, the deletes are those of the second pass and the confirmation
    lines are those of the first: the run prints one line for every name of
    the first pass, in order, whether or not the second pass deleted it,
    and ends with exit status 0. *)
Theorem main_prints_first_pass_deletes_second
        (sys : system) (cfg : config) (now : datetime) (fuel : nat)
        (st st0 st1 st2 : state sys) (token : json)
        (names1 names2 : list string) (wend : World sys) :
  tags_to_delete sys cfg now fuel st = (Ok names1, st0) ->
  names1 <> [] ->
  docker_hub_token sys cfg st0 = (Ok token, st1) ->
  tags_to_delete sys cfg now fuel st1 = (Ok names2, st2) ->
  deletes_ok sys cfg token (world sys st2) names2 wend ->
  main sys cfg now fuel st
  = (Ok tt,
     {| world := wend;
        log := log sys st2 ++ map (delete_request cfg token) names2;
        stdout := stdout sys st ++ map (deleted_line cfg) names1 |})
  /\ exit_status (fst (main sys cfg now fuel st)) = Some 0.
Proof.
  intros H0 Hne Htok H2 Hdel.
  assert (Hout : stdout sys st2 = stdout sys st).
  { destruct (quiet_tags_to_delete sys cfg now is_delete eq_refl
                (fun _ _ => eq_refl) (fun _ => eq_refl) fuel _ _ _ H0)
      as [_ Ha].
    destruct (quiet_docker_hub_token sys cfg is_delete eq_refl _ _ _ Htok)
      as [_ Hb].
    destruct (quiet_tags_to_delete sys cfg now is_delete eq_refl
                (fun _ _ => eq_refl) (fun _ => eq_refl) fuel _ _ _ H2)
      as [_ Hc].
    congruence. }
  assert (Hmain : main sys cfg now fuel st
                  = (Ok tt,
                     {| world := wend;
                        log := log sys st2
                                 ++ map (delete_request cfg token) names2;
                        stdout := stdout sys st
                                    ++ map (deleted_line cfg) names1 |})).
  { unfold main. rewrite (bind_ok _ _ _ _ _ _ H0), (nonempty_length _ Hne).
    unfold delete_expired_tags. unfold bind at 1.
    rewrite (bind_ok _ _ _ _ _ _ Htok), (bind_ok _ _ _ _ _ _ H2).
    rewrite (delete_loop_ok sys cfg token _ names2 wend Hdel [] st2 eq_refl).
    rewrite print_deleted_run. cbn [world log stdout]. rewrite Hout.
    reflexivity. }
  split; [exact Hmain | rewrite Hmain; reflexivity].
Qed.

Lemma main_prints_first_pass_deletes_second_witness :
  let sys := Fixture.tape_system [Script.old_record ["*"]] [] in
  let run := main sys Fixture.json_config Fixture.a_now 5
               (Fixture.start (sys := sys) Script2.tag_appears) in
  fst run = Ok tt
  /\ stdout sys (snd run) = ["> Deleted org/repo:a"]
  /\ filter is_delete (log sys (snd run))
     = [delete_request Fixture.json_config (JStr "jwt") "a";
        delete_request Fixture.json_config (JStr "jwt") "b"].
Proof.
  intros sys run. unfold run.
  rewrite (proj1 (main_prints_first_pass_deletes_second
                    sys Fixture.json_config Fixture.a_now 5
                    (Fixture.start (sys := sys) Script2.tag_appears)
                    _ _ _ (JStr "jwt") ["a"] ["a"; "b"] []
                    eq_refl ltac:(discriminate) eq_refl eq_refl
                    ltac:(repeat (eapply deletes_cons;
                                  [reflexivity | reflexivity |]);
                          apply deletes_nil))).
  repeat split.
Defined.

(** X17.  A login that is answered without an error status gives the value
    under the key ['token'] of the decoded body, whatever that value is; a
    body that is no JSON raises [JSONDecodeError], a body without the key
    raises [KeyError].  One request is sent in every case. *)
Theorem docker_hub_token_reads_the_body
        (sys : system) (cfg : config) (st : state sys)
        (auth : response) (w' : World sys) :
  send sys (login_request cfg) (world sys st) = (Ok auth, w') ->
  is_http_error auth = false ->
  docker_hub_token sys cfg st
  = (match json_body auth with
     | None => Raise JSONDecodeError
     | Some (JObj kv) =>
         match assoc "token" kv with
         | Some token => Ok token
         | None => Raise (KeyError "token")
         end
     | Some _ => Raise TypeError
     end,
     {| world := w'; log := log sys st ++ [login_request cfg];
        stdout := stdout sys st |}).
Proof.
  intros Hs Hok. unfold docker_hub_token.
  unfold bind at 1. rewrite http_run, Hs. cbn [fst snd].
  unfold bind at 1, raise_for_status. rewrite Hok. cbn [ret].
  unfold bind, resp_json, lift, ret, raise.
  destruct (json_body auth) as [[| | | | |kv]|]; try reflexivity.
Qed.

Lemma docker_hub_token_reads_the_body_witness :
  let sys := Fixture.tape_system [] [] in
  fst (docker_hub_token sys Fixture.json_config
         (Fixture.start (sys := sys) Script2.login_without_token))
  = Raise (KeyError "token").
Proof.
  intro sys.
  rewrite (docker_hub_token_reads_the_body sys Fixture.json_config
             (Fixture.start (sys := sys) Script2.login_without_token)
             {| status_code := 200;
                json_body := Some (JObj [("detail", JStr "try later")]) |}
             [] eq_refl eq_refl).
  reflexivity.
Defined.

(** X18.  The Markdown reader gives all or nothing: when a row of the table
    (a candidate row after the first two) does not parse, the reader fails
    with the error of the first such row and returns none of the records of
    the rows before it or after it. *)
Theorem get_readme_table_fails_on_first_bad_row
        (cfg : config) (lines : list string)
        (header separator bad : string) (good rest : list string)
        (records : list item) (e : exn) :
  candidate_rows cfg lines false = header :: separator :: good ++ bad :: rest ->
  rmap (parse_md_line cfg) good = Ok records ->
  parse_md_line cfg bad = Raise e ->
  get_readme_table cfg lines = Raise e.
Proof.
  intros Hc Hgood Hbad. unfold get_readme_table.
  rewrite readme_loop_rows by lia. rewrite Hc.
  replace (Z.to_nat (2 - 0)) with 2%nat by reflexivity. cbn [skipn].
  rewrite rmap_app, Hgood. cbn [rbind rmap]. rewrite Hbad. reflexivity.
Qed.

Lemma get_readme_table_fails_on_first_bad_row_witness :
  get_readme_table Fixture2.both_config Script2.short_row_table
  = Raise (IndexError "date column is out of range.").
Proof.
  apply (get_readme_table_fails_on_first_bad_row
           Fixture2.both_config Script2.short_row_table
           "| Tag | Date |" "|-----|------|" "| `2.*`"
           ["| `1.*` | January 01, 2020 |"]
           ["| `3.*` | January 01, 2020 |"]
           [ {| tags := ["1.*"]; date := "January 01, 2020" |} ]);
    reflexivity.
Defined.
